(** * hand_detection_tflite: the native plugin shims, embedded and verified

    The repository holds two platform shims of one Flutter plugin:
    - [linux/hand_detection_tflite_plugin.cc] (GObject/C style), and
    - [windows/hand_detection_tflite_plugin.cpp] together with
      [windows/hand_detection_tflite_plugin_c_api.cpp] (C++ style).

    Each shim registers the method channel "hand_detection_tflite" and answers
    the single method "getPlatformVersion".  This file embeds both handlers and
    the Windows registration entry points as state-passing Rocq functions and
    proves the properties the specification states about them. *)

From Stdlib Require Import ZArith String Ascii List Bool Lia.
From stdpp Require Import base gmap strings.
Import ListNotations.

Local Open Scope Z_scope.
Local Open Scope string_scope.

(* ===================================================================== *)
(** ** C and C++ string primitives used by the handlers *)
(* ===================================================================== *)

Module CString.

(** A C string is held as the Rocq [string] of the bytes that precede its
    terminating NUL; the end of the Rocq string plays the terminator. *)

Definition NUL : ascii := Ascii.zero.

(** The value of a [char] read as [unsigned char], which is how [strcmp] and
    [std::char_traits<char>::compare] order characters. *)
Definition uchar (c : ascii) : Z := Z.of_N (N_of_ascii c).

(** The bytes a [const char*] denotes: everything before the first NUL. *)
Fixpoint c_str (s : string) : string :=
  match s with
  | EmptyString => EmptyString
  | String c s' => if Ascii.eqb c NUL then EmptyString else String c (c_str s')
  end.

(** [is_c_string s]: no byte of [s] is NUL, so [s] is exactly what a
    [const gchar*] pointing at it denotes. *)
Fixpoint is_c_string (s : string) : bool :=
  match s with
  | EmptyString => true
  | String c s' => negb (Ascii.eqb c NUL) && is_c_string s'
  end.

Definition strlen (s : string) : nat := String.length (c_str s).

(** [strcmp(a, b)]: walk both strings; at the first position where the bytes
    differ return their difference as unsigned chars; stop with 0 when both
    reach a NUL.  The end of a Rocq string reads as NUL. *)
Fixpoint strcmp (a b : string) : Z :=
  match a, b with
  | EmptyString, EmptyString => 0
  | EmptyString, String d _ => uchar NUL - uchar d
  | String c _, EmptyString => uchar c - uchar NUL
  | String c a', String d b' =>
      if Ascii.eqb c d
      then (if Ascii.eqb c NUL then 0 else strcmp a' b')
      else uchar c - uchar d
  end.

(** [std::char_traits<char>::compare(a, b, n)]: the first [n] characters,
    ordered as unsigned chars.  Both operands hold at least [n] characters
    at every call site; a missing character reads as NUL. *)
Fixpoint traits_compare (a b : string) (n : nat) {struct n} : Z :=
  match n with
  | O => 0
  | S n' =>
      match a, b with
      | String c a', String d b' =>
          if Ascii.eqb c d then traits_compare a' b' n' else uchar c - uchar d
      | String c _, EmptyString => uchar c - uchar NUL
      | EmptyString, String d _ => uchar NUL - uchar d
      | EmptyString, EmptyString => 0
      end
  end.

(** [std::string::compare(const char* s)]: compare the common prefix of the
    whole [std::string] (embedded NULs included) with the NUL-terminated
    [s]; on a tie the shorter operand is the smaller. *)
Definition compare (self s : string) : Z :=
  let size := String.length self in
  let osize := strlen s in
  let r := traits_compare self s (Nat.min size osize) in
  if Z.eqb r 0 then Z.of_nat size - Z.of_nat osize else r.

(** The one conversion of [g_strdup_printf] the plugin uses: [%s] copies the
    next argument up to its NUL, [%%] is a percent sign, any other character
    is copied.  A [%s] with no argument left is undefined in C and is
    rendered here as nothing. *)
Fixpoint g_strdup_printf (format : string) (args : list string) : string :=
  match format with
  | EmptyString => EmptyString
  | String "%"%char (String "s"%char rest) =>
      match args with
      | a :: args' => c_str a ++ g_strdup_printf rest args'
      | [] => g_strdup_printf rest []
      end
  | String "%"%char (String "%"%char rest) =>
      String "%"%char (g_strdup_printf rest args)
  | String c rest => String c (g_strdup_printf rest args)
  end.

End CString.

(* ===================================================================== *)
(** ** State passing *)
(* ===================================================================== *)

(** Both handlers talk to the outside (the kernel, the host framework) and
    return nothing; they are embedded as functions from a world to a result
    and a new world. *)

Module StateM.

Definition M (W A : Type) : Type := W -> A * W.

Definition ret {W A : Type} (a : A) : M W A := fun w => (a, w).

Definition bind {W A B : Type} (m : M W A) (k : A -> M W B) : M W B :=
  fun w => let (a, w') := m w in k a w'.

Definition exec {W A : Type} (m : M W A) (w : W) : W := snd (m w).

Declare Scope stm_scope.
Delimit Scope stm_scope with stm.
Notation "x <- m ;; k" := (bind m (fun x => k))
  (at level 20, m at level 99, k at level 200) : stm_scope.

End StateM.

Import StateM.

(* ===================================================================== *)
(** ** The Linux shim: linux/hand_detection_tflite_plugin.cc *)
(* ===================================================================== *)

Module Linux.
Import CString.

(** [struct utsname] of <sys/utsname.h>: each field a NUL-terminated
    character array. *)
Record utsname : Type := mk_utsname {
  sysname : string;
  nodename : string;
  release : string;
  version : string;
  machine : string
}.

(** [struct utsname uname_data = {};] *)
Definition utsname_zeroed : utsname := mk_utsname EmptyString EmptyString EmptyString EmptyString EmptyString.

(** The GObject header every instance starts with. *)
Record GObject : Type := mk_GObject { ref_count : N }.

(** [struct _HandDetectionTflitePlugin { GObject parent_instance; };] *)
Record HandDetectionTflitePlugin : Type := mk_plugin {
  parent_instance : GObject
}.

(** [FlValueType] and [FlValue] of the host framework.  A float is kept by
    its bit pattern. *)
Inductive FlValueType : Type :=
| FL_VALUE_TYPE_NULL
| FL_VALUE_TYPE_BOOL
| FL_VALUE_TYPE_INT
| FL_VALUE_TYPE_FLOAT
| FL_VALUE_TYPE_STRING
| FL_VALUE_TYPE_UINT8_LIST
| FL_VALUE_TYPE_INT32_LIST
| FL_VALUE_TYPE_INT64_LIST
| FL_VALUE_TYPE_FLOAT_LIST
| FL_VALUE_TYPE_LIST
| FL_VALUE_TYPE_MAP.

#[local] Unset Elimination Schemes.
Inductive FlValue : Type :=
| fl_null
| fl_bool (b : bool)
| fl_int (i : Z)
| fl_float (bits : Z)
| fl_string (s : string)
| fl_uint8_list (l : list Z)
| fl_int32_list (l : list Z)
| fl_int64_list (l : list Z)
| fl_float_list (l : list Z)
| fl_list (l : list FlValue)
| fl_map (m : list (FlValue * FlValue)).
#[local] Set Elimination Schemes.

Definition fl_value_get_type (v : FlValue) : FlValueType :=
  match v with
  | fl_null => FL_VALUE_TYPE_NULL
  | fl_bool _ => FL_VALUE_TYPE_BOOL
  | fl_int _ => FL_VALUE_TYPE_INT
  | fl_float _ => FL_VALUE_TYPE_FLOAT
  | fl_string _ => FL_VALUE_TYPE_STRING
  | fl_uint8_list _ => FL_VALUE_TYPE_UINT8_LIST
  | fl_int32_list _ => FL_VALUE_TYPE_INT32_LIST
  | fl_int64_list _ => FL_VALUE_TYPE_INT64_LIST
  | fl_float_list _ => FL_VALUE_TYPE_FLOAT_LIST
  | fl_list _ => FL_VALUE_TYPE_LIST
  | fl_map _ => FL_VALUE_TYPE_MAP
  end.

(** [fl_value_new_string] copies the C string it is given. *)
Definition fl_value_new_string (value : string) : FlValue :=
  fl_string (c_str value).

(** The three kinds of [FlMethodResponse]. *)
Inductive FlMethodResponse : Type :=
| FlMethodSuccessResponse (result : FlValue)
| FlMethodErrorResponse (code message : string) (details : FlValue)
| FlMethodNotImplementedResponse.

Definition fl_method_success_response_new (result : FlValue) : FlMethodResponse :=
  FlMethodSuccessResponse result.

Definition fl_method_not_implemented_response_new : FlMethodResponse :=
  FlMethodNotImplementedResponse.

(** [FL_IS_METHOD_SUCCESS_RESPONSE] as the test uses it. *)
Definition FL_IS_METHOD_SUCCESS_RESPONSE (r : FlMethodResponse) : bool :=
  match r with FlMethodSuccessResponse _ => true | _ => false end.

Definition FL_IS_METHOD_NOT_IMPLEMENTED_RESPONSE (r : FlMethodResponse) : bool :=
  match r with FlMethodNotImplementedResponse => true | _ => false end.

(** An incoming [FlMethodCall]: the method name and the arguments. *)
Record FlMethodCall : Type := mk_call {
  call_name : string;
  call_args : FlValue
}.

Definition fl_method_call_get_name (method_call : FlMethodCall) : string :=
  call_name method_call.

(** What a call can read or write: the kernel's identification (what
    [uname] reports), the plugin instances by address, and the responses
    handed to the framework so far, oldest first. *)
Record World : Type := mk_world {
  kernel : utsname;
  instances : gmap N HandDetectionTflitePlugin;
  responses : list FlMethodResponse
}.

(** [uname(&buf)]: fills the buffer with the kernel's identification and
    returns 0. *)
Definition uname (buf : utsname) : M World (Z * utsname) :=
  fun w => ((0, kernel w), w).

(** [fl_method_call_respond(method_call, response, nullptr)]: hands the
    response for this call to the framework. *)
Definition respond_with (w : World) (response : FlMethodResponse) : World :=
  mk_world (kernel w) (instances w) (responses w ++ [response]).

Definition fl_method_call_respond (method_call : FlMethodCall)
    (response : FlMethodResponse) : M World bool :=
  fun w => (true, respond_with w response).

Local Open Scope stm_scope.

(** [FlMethodResponse* get_platform_version()] *)
Definition get_platform_version : M World FlMethodResponse :=
  let uname_data := utsname_zeroed in
  r <- uname uname_data ;;
  let uname_data := snd r in
  let version := g_strdup_printf "Linux %s" [version uname_data] in
  let result := fl_value_new_string version in
  ret (fl_method_success_response_new result).

(** [static void hand_detection_tflite_plugin_handle_method_call(self, method_call)] *)
Definition hand_detection_tflite_plugin_handle_method_call
    (self : N) (method_call : FlMethodCall) : M World unit :=
  let method := fl_method_call_get_name method_call in
  response <-
    (if Z.eqb (strcmp method "getPlatformVersion") 0
     then get_platform_version
     else ret fl_method_not_implemented_response_new) ;;
  _ <- fl_method_call_respond method_call response ;;
  ret tt.

(** The response a call adds to the world: the last one recorded. *)
Definition response_to (self : N) (method_call : FlMethodCall) (w : World)
    : option FlMethodResponse :=
  last (responses (exec (hand_detection_tflite_plugin_handle_method_call self method_call) w)).

End Linux.

(* ===================================================================== *)
(** ** The Windows shim: windows/hand_detection_tflite_plugin.cpp and
       windows/hand_detection_tflite_plugin_c_api.cpp *)
(* ===================================================================== *)

Module Windows.
Import CString.

(** What the three predicates of <VersionHelpers.h> answer on the running
    system.  They are independent answers of the operating system: nothing
    in the plugin relates one to another. *)
Record VersionHelpers : Type := mk_version {
  windows10_or_greater : bool;
  windows8_or_greater : bool;
  windows7_or_greater : bool
}.

(** [flutter::EncodableValue], a variant.  A double is kept by its bit
    pattern. *)
#[local] Unset Elimination Schemes.
Inductive EncodableValue : Type :=
| EncodableNull
| EncodableBool (b : bool)
| EncodableInt32 (i : Z)
| EncodableInt64 (i : Z)
| EncodableDouble (bits : Z)
| EncodableString (s : string)
| EncodableUint8List (l : list Z)
| EncodableInt32List (l : list Z)
| EncodableInt64List (l : list Z)
| EncodableDoubleList (l : list Z)
| EncodableList (l : list EncodableValue)
| EncodableMap (m : list (EncodableValue * EncodableValue)).
#[local] Set Elimination Schemes.

(** [std::holds_alternative<std::string>] *)
Definition holds_string (v : EncodableValue) : bool :=
  match v with EncodableString _ => true | _ => false end.

(** The three ways a [flutter::MethodResult] can be completed. *)
Inductive MethodResult : Type :=
| SuccessResult (value : EncodableValue)
| ErrorResult (code message : string) (details : EncodableValue)
| NotImplementedResult.

Definition is_success (r : MethodResult) : bool :=
  match r with SuccessResult _ => true | _ => false end.

Definition is_not_implemented (r : MethodResult) : bool :=
  match r with NotImplementedResult => true | _ => false end.

(** [flutter::MethodCall<EncodableValue>] *)
Record MethodCall : Type := mk_call {
  method_name : string;
  arguments : EncodableValue
}.

(** [class HandDetectionTflitePlugin : public flutter::Plugin]: no data
    member. *)
Inductive HandDetectionTflitePlugin : Type := mk_plugin.

Inductive MethodCodec : Type :=
| StandardMethodCodec
| JsonMethodCodec.

(** The closure installed on the channel,
    [[plugin_pointer = plugin.get()](const auto &call, auto result) {...}],
    kept by what it captured. *)
Inductive MethodCallHandler : Type :=
| plugin_handler (plugin_pointer : N).

(** [flutter::MethodChannel]: messenger, name and codec. *)
Record MethodChannel : Type := mk_channel {
  channel_messenger : N;
  channel_name : string;
  channel_codec : MethodCodec
}.

(** [flutter::PluginRegistrarWindows]: the wrapper the manager keeps for a
    registrar handle; it owns the plugins added to it. *)
Record PluginRegistrarWindows : Type := mk_registrar {
  plugins_ : list N
}.

(** What a call can read or write: the operating system's version answers,
    the plugin objects by address with the next free address, the
    singleton [PluginRegistrarManager]'s table of wrappers by registrar
    handle, the handlers installed per messenger and channel name, and the
    results completed so far, oldest first. *)
Record World : Type := mk_world {
  os_version : VersionHelpers;
  heap : gmap N HandDetectionTflitePlugin;
  next_address : N;
  registrars_ : gmap N PluginRegistrarWindows;
  message_handlers : gmap (N * string) (MethodCodec * MethodCallHandler);
  results : list MethodResult
}.

Definition IsWindows10OrGreater : M World bool :=
  fun w => (windows10_or_greater (os_version w), w).
Definition IsWindows8OrGreater : M World bool :=
  fun w => (windows8_or_greater (os_version w), w).
Definition IsWindows7OrGreater : M World bool :=
  fun w => (windows7_or_greater (os_version w), w).

(** Completing the [result] of the call being handled. *)
Definition completed_with (w : World) (r : MethodResult) : World :=
  mk_world (os_version w) (heap w) (next_address w) (registrars_ w)
           (message_handlers w) (results w ++ [r]).

Definition complete (r : MethodResult) : M World unit :=
  fun w => (tt, completed_with w r).

(** [result->Success(value)] *)
Definition Success (value : EncodableValue) : M World unit :=
  complete (SuccessResult value).

(** [result->NotImplemented()] *)
Definition NotImplemented : M World unit :=
  complete NotImplementedResult.

(** [std::ostringstream]: the characters written so far. *)
Definition ostringstream := string.
Definition ostringstream_new : ostringstream := EmptyString.
(** [stream << s] for a string literal [s]. *)
Definition put (stream : ostringstream) (s : string) : ostringstream :=
  stream ++ c_str s.
(** [stream.str()] *)
Definition str (stream : ostringstream) : string := stream.

Local Open Scope stm_scope.

(** [void HandDetectionTflitePlugin::HandleMethodCall(method_call, result)] *)
Definition HandleMethodCall (self : N) (method_call : MethodCall) : M World unit :=
  if Z.eqb (compare (method_name method_call) "getPlatformVersion") 0 then
    let version_stream := ostringstream_new in
    let version_stream := put version_stream "Windows " in
    is10 <- IsWindows10OrGreater ;;
    version_stream <-
      (if is10 : bool then ret (put version_stream "10+")
       else
         is8 <- IsWindows8OrGreater ;;
         if is8 : bool then ret (put version_stream "8")
         else
           is7 <- IsWindows7OrGreater ;;
           if is7 : bool then ret (put version_stream "7")
           else ret version_stream) ;;
    Success (EncodableString (str version_stream))
  else
    NotImplemented.

(** The result a call completes: the last one recorded. *)
Definition result_of (self : N) (method_call : MethodCall) (w : World)
    : option MethodResult :=
  last (results (exec (HandleMethodCall self method_call) w)).

(** *** Registration *)

(** [flutter::PluginRegistrarManager::GetInstance()->GetRegistrar<PluginRegistrarWindows>(ref)]:
    the wrapper kept for the handle, created on first use.  The wrapper is
    named by its handle. *)
Definition GetRegistrar (registrar_ref : N) : M World N :=
  fun w =>
    match registrars_ w !! registrar_ref with
    | Some _ => (registrar_ref, w)
    | None =>
        (registrar_ref,
         mk_world (os_version w) (heap w) (next_address w)
                  (<[registrar_ref := mk_registrar []]> (registrars_ w))
                  (message_handlers w) (results w))
    end.

(** [registrar->messenger()]: the messenger of that registrar. *)
Definition messenger (registrar : N) : N := registrar.

(** [std::make_unique<HandDetectionTflitePlugin>()]: a new object at the
    next free address. *)
Definition make_unique_plugin : M World N :=
  fun w =>
    let a := next_address w in
    (a, mk_world (os_version w) (<[a := mk_plugin]> (heap w)) (N.succ a)
                 (registrars_ w) (message_handlers w) (results w)).

(** [channel->SetMethodCallHandler(handler)] *)
Definition SetMethodCallHandler (channel : MethodChannel) (handler : MethodCallHandler)
    : M World unit :=
  fun w =>
    (tt, mk_world (os_version w) (heap w) (next_address w) (registrars_ w)
                  (<[(channel_messenger channel, channel_name channel) :=
                       (channel_codec channel, handler)]> (message_handlers w))
                  (results w)).

(** [registrar->AddPlugin(std::move(plugin))] *)
Definition AddPlugin (registrar : N) (plugin : N) : M World unit :=
  fun w =>
    (tt, mk_world (os_version w) (heap w) (next_address w)
                  (alter (fun r => mk_registrar (plugins_ r ++ [plugin])) registrar
                         (registrars_ w))
                  (message_handlers w) (results w)).

(** [void HandDetectionTflitePlugin::RegisterWithRegistrar(registrar)] *)
Definition RegisterWithRegistrar (registrar : N) : M World unit :=
  let channel :=
    mk_channel (messenger registrar) "hand_detection_tflite" StandardMethodCodec in
  plugin <- make_unique_plugin ;;
  _ <- SetMethodCallHandler channel (plugin_handler plugin) ;;
  AddPlugin registrar plugin.

(** [void HandDetectionTflitePluginRegisterWithRegistrar(registrar)]
    (hand_detection_tflite_plugin.cpp) *)
Definition HandDetectionTflitePluginRegisterWithRegistrar (registrar : N) : M World unit :=
  cpp_registrar <- GetRegistrar registrar ;;
  RegisterWithRegistrar cpp_registrar.

(** [void HandDetectionTflitePluginCApiRegisterWithRegistrar(registrar)]
    (hand_detection_tflite_plugin_c_api.cpp): the registrar is looked up in
    the argument position of the call. *)
Definition HandDetectionTflitePluginCApiRegisterWithRegistrar (registrar : N)
    : M World unit :=
  bind (GetRegistrar registrar) RegisterWithRegistrar.

(** Running an installed closure: its body calls
    [plugin_pointer->HandleMethodCall(call, std::move(result))]. *)
Definition invoke (handler : MethodCallHandler) (call : MethodCall) : M World unit :=
  match handler with
  | plugin_handler plugin_pointer => HandleMethodCall plugin_pointer call
  end.

(** A call arriving on a channel of a messenger runs the closure installed
    there, if there is one. *)
Definition dispatch (messenger_id : N) (channel : string) (call : MethodCall)
    (w : World) : option World :=
  match message_handlers w !! (messenger_id, channel) with
  | Some (_, handler) => Some (exec (invoke handler call) w)
  | None => None
  end.

End Windows.

(* ===================================================================== *)
(** ** Vocabulary of the specification *)
(* ===================================================================== *)

Module Spec.

(** The one method name both handlers recognise. *)
Definition recognised : string := "getPlatformVersion".

(** ASCII case folding, to say that two names differ in letter case only. *)
Definition to_lower_ascii (c : ascii) : ascii :=
  let n := N_of_ascii c in
  if (N.leb 65 n && N.leb n 90)%bool then ascii_of_N (n + 32) else c.

Fixpoint to_lower (s : string) : string :=
  match s with
  | EmptyString => EmptyString
  | String c s' => String (to_lower_ascii c) (to_lower s')
  end.

(** The characters C's [isspace] accepts. *)
Definition isspace (c : ascii) : bool :=
  let n := N_of_ascii c in
  (N.eqb n 32 || (N.leb 9 n && N.leb n 13))%bool.

Fixpoint all_space (s : string) : bool :=
  match s with
  | EmptyString => true
  | String c s' => isspace c && all_space s'
  end.

(** The names that come close to the recognised one without being it. *)
Inductive near_miss : string -> Prop :=
| differs_in_case (name : string) :
    name <> recognised ->
    to_lower name = to_lower recognised ->
    near_miss name
| surrounded_by_space (before after : string) :
    (before <> EmptyString \/ after <> EmptyString) ->
    all_space before = true ->
    all_space after = true ->
    near_miss (before ++ recognised ++ after)
| strict_prefix (name rest : string) :
    rest <> EmptyString ->
    name ++ rest = recognised ->
    near_miss name
| strict_extension (rest : string) :
    rest <> EmptyString ->
    near_miss (recognised ++ rest).

(** The Windows version tiers as the specification words them: an ordered
    list of (predicate, label) pairs, tried in sequence, the first match
    giving the label and no match giving the empty suffix. *)
Definition version_tiers (v : Windows.VersionHelpers) : list (bool * string) :=
  [ (Windows.windows10_or_greater v, "10+");
    (Windows.windows8_or_greater v, "8");
    (Windows.windows7_or_greater v, "7") ].

Fixpoint first_match (tiers : list (bool * string)) : string :=
  match tiers with
  | [] => EmptyString
  | (holds, label) :: rest => if holds then label else first_match rest
  end.

Definition windows_version_string (v : Windows.VersionHelpers) : string :=
  "Windows " ++ first_match (version_tiers v).

(** The same choice spelt out case by case. *)
Definition windows_version_by_cases (v : Windows.VersionHelpers) : string :=
  if Windows.windows10_or_greater v then "Windows 10+"
  else if Windows.windows8_or_greater v then "Windows 8"
  else if Windows.windows7_or_greater v then "Windows 7"
  else "Windows ".

End Spec.

(* ===================================================================== *)
(** ** Concrete systems to run the handlers on *)
(* ===================================================================== *)

Module Examples.

(** A kernel whose release and version fields differ, as they do on any
    real system. *)
Definition kernel_5_15 : Linux.utsname :=
  Linux.mk_utsname "Linux" "build-host" "5.15.0-generic"
                   "#1 SMP Debian 5.15.0-1 (2022-03-01)" "x86_64".

Definition linux_world : Linux.World :=
  Linux.mk_world kernel_5_15
                 {[ 1%N := Linux.mk_plugin (Linux.mk_GObject 1) ]} [].

Definition windows_world (v : Windows.VersionHelpers) : Windows.World :=
  Windows.mk_world v ∅ 0%N ∅ ∅ [].

Definition windows10 : Windows.VersionHelpers := Windows.mk_version true true true.
Definition windows8 : Windows.VersionHelpers := Windows.mk_version false true true.
Definition windows7 : Windows.VersionHelpers := Windows.mk_version false false true.
Definition windows_vista : Windows.VersionHelpers := Windows.mk_version false false false.

End Examples.

(* ===================================================================== *)
(** ** The rest of the Linux shim: instance life cycle, the channel callback
       and registration *)
(* ===================================================================== *)

Module LinuxHost.
Import CString Linux.
Local Open Scope stm_scope.

(** [get_platform_version] with the libc call left open, to follow what the
    function does when [uname] behaves otherwise than on a healthy system. *)
Section UnameOpen.
Variable uname_impl : utsname -> M World (Z * utsname).

Definition get_platform_version_with : M World FlMethodResponse :=
  let uname_data := utsname_zeroed in
  r <- uname_impl uname_data ;;
  let uname_data := snd r in
  let version := g_strdup_printf "Linux %s" [version uname_data] in
  let result := fl_value_new_string version in
  ret (fl_method_success_response_new result).

End UnameOpen.


(** *** The test of linux/test/hand_detection_tflite_plugin_test.cc *)

(** [fl_method_success_response_get_result]; only called on a success. *)
Definition fl_method_success_response_get_result (r : FlMethodResponse) : FlValue :=
  match r with
  | FlMethodSuccessResponse result => result
  | _ => fl_null
  end.

(** [fl_value_get_string]; only called on a string value. *)
Definition fl_value_get_string (v : FlValue) : string :=
  match v with
  | fl_string s => s
  | _ => EmptyString
  end.

Definition FlValueType_eqb (a b : FlValueType) : bool :=
  match a, b with
  | FL_VALUE_TYPE_NULL, FL_VALUE_TYPE_NULL
  | FL_VALUE_TYPE_BOOL, FL_VALUE_TYPE_BOOL
  | FL_VALUE_TYPE_INT, FL_VALUE_TYPE_INT
  | FL_VALUE_TYPE_FLOAT, FL_VALUE_TYPE_FLOAT
  | FL_VALUE_TYPE_STRING, FL_VALUE_TYPE_STRING
  | FL_VALUE_TYPE_UINT8_LIST, FL_VALUE_TYPE_UINT8_LIST
  | FL_VALUE_TYPE_INT32_LIST, FL_VALUE_TYPE_INT32_LIST
  | FL_VALUE_TYPE_INT64_LIST, FL_VALUE_TYPE_INT64_LIST
  | FL_VALUE_TYPE_FLOAT_LIST, FL_VALUE_TYPE_FLOAT_LIST
  | FL_VALUE_TYPE_LIST, FL_VALUE_TYPE_LIST
  | FL_VALUE_TYPE_MAP, FL_VALUE_TYPE_MAP => true
  | _, _ => false
  end.

(** [TEST(PoseDetectionTflitePlugin, GetPlatformVersion)]: the answer is
    whether every assertion held.  The first assertion, that the response is
    not null, holds of every response value. *)
Definition GetPlatformVersion_test (get_version : M World FlMethodResponse) : M World bool :=
  response <- get_version ;;
  if negb (FL_IS_METHOD_SUCCESS_RESPONSE response) then ret false
  else
    let result := fl_method_success_response_get_result response in
    if negb (FlValueType_eqb (fl_value_get_type result) FL_VALUE_TYPE_STRING) then ret false
    else ret (String.prefix "Linux " (fl_value_get_string result)).

(** *** Objects and channels of the host *)

Inductive FlMethodCodec : Type :=
| FlStandardMethodCodec
| FlJsonMethodCodec.

(** The functions the shim passes by address. *)
Inductive FlMethodChannelMethodCallHandler : Type :=
| method_call_cb_pointer.

Inductive GDestroyNotify : Type :=
| g_object_unref_pointer.

(** [FlMethodChannel]: messenger, name and codec. *)
Record FlMethodChannel : Type := mk_channel {
  channel_messenger : N;
  channel_name : string;
  channel_codec : FlMethodCodec
}.

(** What [fl_method_channel_set_method_call_handler] stores for a channel. *)
Record InstalledHandler : Type := mk_handler {
  handler_codec : FlMethodCodec;
  handler_callback : FlMethodChannelMethodCallHandler;
  handler_user_data : N;
  handler_destroy_notify : GDestroyNotify
}.

(** The world of the handler together with what registration touches: the
    next free instance address and the handlers installed per messenger and
    channel name. *)
Record Host : Type := mk_host {
  world : World;
  next_instance : N;
  handlers : gmap (N * string) InstalledHandler
}.

(** Running handler code inside the host. *)
Definition lift {A : Type} (m : M World A) : M Host A :=
  fun h => let (a, w') := m (world h) in (a, mk_host w' (next_instance h) (handlers h)).

Definition with_instances
    (f : gmap N HandDetectionTflitePlugin -> gmap N HandDetectionTflitePlugin)
    (h : Host) : Host :=
  mk_host (Linux.mk_world (kernel (world h)) (f (instances (world h))) (responses (world h)))
          (next_instance h) (handlers h).

(** [static void hand_detection_tflite_plugin_init(self) {}] *)
Definition hand_detection_tflite_plugin_init (self : N) : M Host unit := ret tt.

(** The class structure: the one virtual function the shim touches. *)
Record GObjectClass : Type := mk_class {
  dispose : N -> M Host unit
}.

(** GObject's own dispose releases signal handlers and attached data, none of
    which is part of this state. *)
Definition g_object_class : GObjectClass := mk_class (fun _ => ret tt).

(** [hand_detection_tflite_plugin_parent_class], as G_DEFINE_TYPE sets it. *)
Definition hand_detection_tflite_plugin_parent_class : GObjectClass := g_object_class.

(** [static void hand_detection_tflite_plugin_dispose(object)] *)
Definition hand_detection_tflite_plugin_dispose (object : N) : M Host unit :=
  dispose hand_detection_tflite_plugin_parent_class object.

(** [static void hand_detection_tflite_plugin_class_init(klass)] *)
Definition hand_detection_tflite_plugin_class_init (klass : GObjectClass) : GObjectClass :=
  mk_class hand_detection_tflite_plugin_dispose.

(** The class of the type: the parent's, run through [class_init]. *)
Definition hand_detection_tflite_plugin_class : GObjectClass :=
  hand_detection_tflite_plugin_class_init g_object_class.

(** [g_object_new(hand_detection_tflite_plugin_get_type(), nullptr)]: a new
    instance with one reference at the next free address, then the instance
    initialiser. *)
Definition g_object_new : M Host N :=
  fun h =>
    let a := next_instance h in
    let h1 :=
      mk_host (Linux.mk_world (kernel (world h))
                 (<[a := mk_plugin (mk_GObject 1)]> (instances (world h)))
                 (responses (world h)))
              (N.succ a) (handlers h) in
    (a, exec (hand_detection_tflite_plugin_init a) h1).

(** [g_object_ref(object)]: one more reference; returns the object. *)
Definition g_object_ref (object : N) : M Host N :=
  fun h =>
    (object,
     with_instances
       (alter (fun p => mk_plugin (mk_GObject (N.succ (ref_count (parent_instance p)))))
              object) h).

(** [g_object_unref(object)]: one reference less; the last one disposes of
    the object and frees it.  An address that holds no live object, or an
    object with no reference, is refused. *)
Definition g_object_unref (object : N) : M Host unit :=
  fun h =>
    match instances (world h) !! object with
    | None => (tt, h)
    | Some p =>
        let n := ref_count (parent_instance p) in
        if N.eqb n 0 then (tt, h)
        else if N.eqb n 1 then
          (tt, with_instances (delete object)
                 (exec (dispose hand_detection_tflite_plugin_class object) h))
        else
          (tt, with_instances (<[object := mk_plugin (mk_GObject (N.pred n))]>) h)
    end.

Definition run_destroy_notify (notify : GDestroyNotify) (data : N) : M Host unit :=
  match notify with
  | g_object_unref_pointer => g_object_unref data
  end.

Definition fl_standard_method_codec_new : FlMethodCodec := FlStandardMethodCodec.

Definition fl_plugin_registrar_get_messenger (registrar : N) : N := registrar.

Definition fl_method_channel_new (messenger : N) (name : string) (codec : FlMethodCodec)
    : FlMethodChannel :=
  mk_channel messenger (c_str name) codec.

(** [fl_method_channel_set_method_call_handler(channel, handler, user_data,
    destroy_notify)]: a handler already there is released through its own
    destroy notification, then the new one is stored. *)
Definition fl_method_channel_set_method_call_handler (channel : FlMethodChannel)
    (handler : FlMethodChannelMethodCallHandler) (user_data : N)
    (destroy_notify : GDestroyNotify) : M Host unit :=
  fun h =>
    let key := (channel_messenger channel, channel_name channel) in
    let h1 :=
      match handlers h !! key with
      | Some old =>
          exec (run_destroy_notify (handler_destroy_notify old) (handler_user_data old)) h
      | None => h
      end in
    (tt, mk_host (world h1) (next_instance h1)
                 (<[key := mk_handler (channel_codec channel) handler user_data destroy_notify]>
                    (handlers h1))).

(** [static void method_call_cb(channel, method_call, user_data)] *)
Definition method_call_cb (channel : FlMethodChannel) (method_call : FlMethodCall)
    (user_data : N) : M Host unit :=
  let plugin := user_data in
  lift (hand_detection_tflite_plugin_handle_method_call plugin method_call).

(** [void hand_detection_tflite_plugin_register_with_registrar(registrar)].
    The codec and the channel are released by [g_autoptr] when the function
    returns; the messenger keeps what it needs of them. *)
Definition hand_detection_tflite_plugin_register_with_registrar (registrar : N)
    : M Host unit :=
  plugin <- g_object_new ;;
  let codec := fl_standard_method_codec_new in
  let channel :=
    fl_method_channel_new (fl_plugin_registrar_get_messenger registrar)
                          "hand_detection_tflite" codec in
  user_data <- g_object_ref plugin ;;
  _ <- fl_method_channel_set_method_call_handler channel method_call_cb_pointer
         user_data g_object_unref_pointer ;;
  g_object_unref plugin.

(** A call arriving on a channel of a messenger runs the callback installed
    there with its user data, if there is one. *)
Definition deliver (messenger : N) (name : string) (method_call : FlMethodCall)
    (h : Host) : option Host :=
  match handlers h !! (messenger, name) with
  | Some installed =>
      match handler_callback installed with
      | method_call_cb_pointer =>
          Some (exec (method_call_cb (mk_channel messenger name (handler_codec installed))
                        method_call (handler_user_data installed)) h)
      end
  | None => None
  end.

(** The framework dropping the handler of a channel: the entry goes, and its
    destroy notification runs on its user data. *)
Definition drop_handler (messenger : N) (name : string) : M Host unit :=
  fun h =>
    match handlers h !! (messenger, name) with
    | Some installed =>
        let h1 := mk_host (world h) (next_instance h) (delete (messenger, name) (handlers h)) in
        run_destroy_notify (handler_destroy_notify installed) (handler_user_data installed) h1
    | None => (tt, h)
    end.

(** The calls of an event loop, handled one after the other. *)
Fixpoint handle_all (calls : list (N * FlMethodCall)) : M World unit :=
  match calls with
  | [] => ret tt
  | (self, method_call) :: rest =>
      _ <- hand_detection_tflite_plugin_handle_method_call self method_call ;;
      handle_all rest
  end.

(** A host to run registration on: the example world, whose one instance
    sits at address 1, with address 2 free and no handler installed. *)
Definition example_host : Host := mk_host Examples.linux_world 2 ∅.

End LinuxHost.

(* ===================================================================== *)
(** ** Object lifetime and call sequences on Windows *)
(* ===================================================================== *)

Module WindowsLifetime.
Import Windows.
Local Open Scope stm_scope.

(** Addresses are handed out in increasing order: every live object sits
    below the next free address. *)
Definition allocator_ok (w : World) : Prop :=
  forall a : N, is_Some (heap w !! a) -> (a < next_address w)%N.

(** The pointer every installed closure captured names a live plugin that
    some registrar owns. *)
Definition handlers_live (w : World) : Prop :=
  forall (key : N * string) (codec : MethodCodec) (p : N),
    message_handlers w !! key = Some (codec, plugin_handler p) ->
    is_Some (heap w !! p)
    /\ exists (reg : N) (r : PluginRegistrarWindows),
         registrars_ w !! reg = Some r /\ p ∈ plugins_ r.

Definition well_formed (w : World) : Prop := allocator_ok w /\ handlers_live w.

(** What can happen to a world: a registration through either entry point,
    or a call arriving on a channel that has a handler. *)
Inductive step : World -> World -> Prop :=
| step_register (registrar : N) (w : World) :
    step w (exec (HandDetectionTflitePluginRegisterWithRegistrar registrar) w)
| step_register_c_api (registrar : N) (w : World) :
    step w (exec (HandDetectionTflitePluginCApiRegisterWithRegistrar registrar) w)
| step_call (messenger_id : N) (channel : string) (call : MethodCall) (w w' : World) :
    dispatch messenger_id channel call w = Some w' ->
    step w w'.

(** The calls of an event loop, handled one after the other. *)
Fixpoint handle_all (calls : list (N * MethodCall)) : M World unit :=
  match calls with
  | [] => ret tt
  | (self, method_call) :: rest =>
      _ <- HandleMethodCall self method_call ;;
      handle_all rest
  end.

End WindowsLifetime.

(* ===================================================================== *)
(** ** Facts about the string primitives *)
(* ===================================================================== *)

Section CStringFacts.
Import CString.

Lemma uchar_diff_zero (c d : ascii) : uchar c - uchar d = 0 -> c = d.
Proof.
  unfold uchar. intros H.
  assert (E : N_of_ascii c = N_of_ascii d) by lia.
  rewrite <- (ascii_N_embedding c), <- (ascii_N_embedding d).
  now rewrite E.
Qed.

Lemma uchar_diff_nonzero (c d : ascii) : c <> d -> uchar c - uchar d <> 0.
Proof. intros Hne H. apply Hne. now apply uchar_diff_zero. Qed.

Lemma c_str_of_c_string (s : string) : is_c_string s = true -> c_str s = s.
Proof.
  induction s as [|c s IH]; simpl; [reflexivity|].
  intros H. apply andb_prop in H as [Hc Hs].
  destruct (Ascii.eqb c NUL); [discriminate|].
  now rewrite IH.
Qed.

Lemma c_str_is_c_string (s : string) : is_c_string (c_str s) = true.
Proof.
  induction s as [|c s IH]; simpl; [reflexivity|].
  destruct (Ascii.eqb c NUL) eqn:E; simpl; [reflexivity|].
  now rewrite E, IH.
Qed.

Lemma c_str_idempotent (s : string) : c_str (c_str s) = c_str s.
Proof. apply c_str_of_c_string, c_str_is_c_string. Qed.

(** [strcmp] answers 0 exactly when the two C strings are the same. *)
Lemma strcmp_zero_iff (a b : string) : strcmp a b = 0 <-> c_str a = c_str b.
Proof.
  revert b. induction a as [|c a IH]; intros [|d b]; simpl.
  - tauto.
  - destruct (Ascii.eqb_spec d NUL) as [->|Hd].
    + split; reflexivity.
    + split; [|discriminate].
      intros H. exfalso. apply Hd. symmetry. now apply uchar_diff_zero.
  - destruct (Ascii.eqb_spec c NUL) as [->|Hc].
    + split; reflexivity.
    + split; [|discriminate].
      intros H. exfalso. apply Hc. now apply uchar_diff_zero.
  - destruct (Ascii.eqb_spec c d) as [->|Hcd].
    + destruct (Ascii.eqb_spec d NUL) as [->|Hd]; [tauto|].
      rewrite IH. split; [now intros -> | now intros [= ->]].
    + split.
      * intros H. exfalso. now apply Hcd, uchar_diff_zero.
      * destruct (Ascii.eqb_spec c NUL) as [->|Hc];
          destruct (Ascii.eqb_spec d NUL) as [->|Hd];
          try discriminate; try congruence.
  Qed.

Lemma strlen_cons (c : ascii) (s : string) :
  c <> NUL -> strlen (String c s) = S (strlen s).
Proof.
  intros Hc. unfold strlen. simpl.
  destruct (Ascii.eqb_spec c NUL); [contradiction | reflexivity].
Qed.

Lemma traits_compare_c_str (a s : string) (n : nat) :
  (n <= strlen s)%nat -> traits_compare a s n = traits_compare a (c_str s) n.
Proof.
  revert a s. induction n as [|n IH]; intros a s Hn; [reflexivity|].
  destruct s as [|d s].
  - unfold strlen in Hn. simpl in Hn. lia.
  - unfold strlen in Hn. simpl in *.
    destruct (Ascii.eqb_spec d NUL) as [->|Hd]; [simpl in Hn; lia|].
    simpl in Hn. destruct a as [|c a]; [reflexivity|].
    destruct (Ascii.eqb c d); [|reflexivity].
    apply IH. unfold strlen. lia.
Qed.

Lemma traits_compare_refl (a : string) (n : nat) : traits_compare a a n = 0.
Proof.
  revert a. induction n as [|n IH]; intros [|c a]; simpl; try reflexivity.
  now rewrite Ascii.eqb_refl.
Qed.

Lemma traits_compare_same_length (a b : string) :
  String.length a = String.length b ->
  traits_compare a b (Nat.min (String.length a) (String.length b)) = 0 ->
  a = b.
Proof.
  revert b. induction a as [|c a IH]; intros [|d b]; simpl; try discriminate.
  - reflexivity.
  - intros [= Hlen]. destruct (Ascii.eqb_spec c d) as [->|Hcd].
    + intros H. f_equal. now apply IH.
    + intros H. exfalso. now apply Hcd, uchar_diff_zero.
Qed.

(** [std::string::compare] answers 0 exactly when the whole string equals
    the C string it is compared with. *)
Lemma compare_zero_iff (self s : string) : compare self s = 0 <-> self = c_str s.
Proof.
  unfold compare.
  rewrite traits_compare_c_str by apply Nat.le_min_r.
  unfold strlen. split.
  - destruct (Z.eqb_spec
                (traits_compare self (c_str s)
                   (Nat.min (String.length self) (String.length (c_str s)))) 0)
      as [E|E]; [|contradiction].
    intros Hlen. apply traits_compare_same_length; [lia | exact E].
  - intros ->. rewrite traits_compare_refl. simpl. lia.
Qed.

End CStringFacts.

(* ===================================================================== *)
(** ** What each handler does, call by call *)
(* ===================================================================== *)

Section StringFacts.

Lemma append_cons (c : ascii) (s t : string) : String c s ++ t = String c (s ++ t).
Proof. reflexivity. Qed.

Lemma append_empty_r (s : string) : s ++ EmptyString = s.
Proof.
  induction s as [|c s IH]; [reflexivity|].
  now rewrite append_cons, IH.
Qed.

Lemma length_append (s t : string) :
  String.length (s ++ t) = (String.length s + String.length t)%nat.
Proof.
  induction s as [|c s IH]; [reflexivity|].
  rewrite append_cons. simpl. now rewrite IH.
Qed.

Lemma length_zero_empty (s : string) : String.length s = 0%nat -> s = EmptyString.
Proof. destruct s; [reflexivity | discriminate]. Qed.

End StringFacts.

Section NearMiss.
Import Spec.

(** Every near miss is a different string. *)
Lemma near_miss_differs (name : string) : near_miss name -> name <> recognised.
Proof.
  intros [n Hne _ | before after Hnonempty _ _ | n rest Hrest Happ | rest Hrest].
  - exact Hne.
  - intros H. apply (f_equal String.length) in H.
    rewrite !length_append in H.
    assert (String.length before = 0%nat /\ String.length after = 0%nat) as [Hb Ha] by lia.
    apply length_zero_empty in Hb, Ha. tauto.
  - intros ->. apply (f_equal String.length) in Happ.
    rewrite length_append in Happ.
    apply Hrest, length_zero_empty. lia.
  - intros H. apply (f_equal String.length) in H.
    rewrite length_append in H.
    apply Hrest, length_zero_empty. lia.
Qed.

End NearMiss.

Section LinuxHandler.
Import CString Linux.

(** The string [get_platform_version] builds. *)
Lemma linux_version_value (v : string) :
  fl_value_new_string (g_strdup_printf "Linux %s" [v]) = fl_string ("Linux " ++ c_str v).
Proof.
  unfold fl_value_new_string. f_equal.
  change (g_strdup_printf "Linux %s" [v]) with ("Linux " ++ (c_str v ++ EmptyString)).
  rewrite append_empty_r.
  change (c_str ("Linux " ++ c_str v)) with ("Linux " ++ c_str (c_str v)).
  now rewrite c_str_idempotent.
Qed.

Lemma get_platform_version_run (w : World) :
  get_platform_version w =
  (FlMethodSuccessResponse (fl_string ("Linux " ++ c_str (version (kernel w)))), w).
Proof.
  unfold get_platform_version, bind, uname, ret, fl_method_success_response_new.
  cbn [snd]. now rewrite linux_version_value.
Qed.

Lemma linux_handle_recognised (self : N) (call : FlMethodCall) (w : World) :
  c_str (call_name call) = "getPlatformVersion" ->
  exec (hand_detection_tflite_plugin_handle_method_call self call) w =
  respond_with w
    (FlMethodSuccessResponse (fl_string ("Linux " ++ c_str (version (kernel w))))).
Proof.
  intros Hname.
  unfold hand_detection_tflite_plugin_handle_method_call, exec, bind,
    fl_method_call_get_name.
  assert (E : strcmp (call_name call) "getPlatformVersion" = 0)
    by (apply strcmp_zero_iff; exact Hname).
  rewrite E. cbn [Z.eqb]. rewrite get_platform_version_run. reflexivity.
Qed.

Lemma linux_handle_other (self : N) (call : FlMethodCall) (w : World) :
  c_str (call_name call) <> "getPlatformVersion" ->
  exec (hand_detection_tflite_plugin_handle_method_call self call) w =
  respond_with w FlMethodNotImplementedResponse.
Proof.
  intros Hname.
  unfold hand_detection_tflite_plugin_handle_method_call, exec, bind,
    fl_method_call_get_name.
  destruct (Z.eqb_spec (strcmp (call_name call) "getPlatformVersion") 0) as [E|E].
  - exfalso. apply Hname. apply strcmp_zero_iff in E. exact E.
  - reflexivity.
Qed.

Lemma linux_response_recognised (self : N) (args : FlValue) (w : World) :
  response_to self (Linux.mk_call "getPlatformVersion" args) w =
  Some (FlMethodSuccessResponse (fl_string ("Linux " ++ c_str (version (kernel w))))).
Proof.
  unfold response_to. rewrite linux_handle_recognised by reflexivity.
  apply last_snoc.
Qed.

Lemma linux_response_other (self : N) (name : string) (args : FlValue) (w : World) :
  is_c_string name = true ->
  name <> "getPlatformVersion" ->
  response_to self (Linux.mk_call name args) w = Some FlMethodNotImplementedResponse.
Proof.
  intros Hc Hne. unfold response_to.
  rewrite linux_handle_other.
  - apply last_snoc.
  - cbn [call_name]. now rewrite c_str_of_c_string.
Qed.

End LinuxHandler.

Section WindowsHandler.
Import CString Windows.

Lemma windows_handle_recognised (self : N) (call : MethodCall) (w : World) :
  method_name call = "getPlatformVersion" ->
  exec (HandleMethodCall self call) w =
  completed_with w (SuccessResult (EncodableString (Spec.windows_version_by_cases (os_version w)))).
Proof.
  intros Hname.
  unfold HandleMethodCall.
  assert (E : compare (method_name call) "getPlatformVersion" = 0)
    by (apply compare_zero_iff; exact Hname).
  rewrite E. cbn [Z.eqb].
  unfold exec, bind, IsWindows10OrGreater, IsWindows8OrGreater, IsWindows7OrGreater,
    Success, complete, ret, completed_with, Spec.windows_version_by_cases.
  destruct (windows10_or_greater (os_version w));
    [reflexivity|].
  destruct (windows8_or_greater (os_version w));
    [reflexivity|].
  destruct (windows7_or_greater (os_version w)); reflexivity.
Qed.

Lemma windows_handle_other (self : N) (call : MethodCall) (w : World) :
  method_name call <> "getPlatformVersion" ->
  exec (HandleMethodCall self call) w = completed_with w NotImplementedResult.
Proof.
  intros Hname. unfold HandleMethodCall.
  destruct (Z.eqb_spec (compare (method_name call) "getPlatformVersion") 0) as [E|E].
  - exfalso. apply Hname. apply compare_zero_iff in E. exact E.
  - reflexivity.
Qed.

Lemma windows_result_recognised (self : N) (args : EncodableValue) (w : World) :
  result_of self (Windows.mk_call "getPlatformVersion" args) w =
  Some (SuccessResult (EncodableString (Spec.windows_version_by_cases (os_version w)))).
Proof.
  unfold result_of. rewrite windows_handle_recognised by reflexivity.
  apply last_snoc.
Qed.

Lemma windows_result_other (self : N) (name : string) (args : EncodableValue) (w : World) :
  name <> "getPlatformVersion" ->
  result_of self (Windows.mk_call name args) w = Some NotImplementedResult.
Proof.
  intros Hne. unfold result_of.
  rewrite windows_handle_other by exact Hne.
  apply last_snoc.
Qed.

End WindowsHandler.

Section WindowsRegistration.
Import Windows.

(** What [RegisterWithRegistrar] leaves behind. *)
Lemma register_with_registrar_run (registrar : N) (w : World) :
  exec (RegisterWithRegistrar registrar) w =
  Windows.mk_world (os_version w)
    (<[next_address w := mk_plugin]> (heap w))
    (N.succ (next_address w))
    (alter (fun r => mk_registrar (plugins_ r ++ [next_address w])) registrar
           (registrars_ w))
    (<[(messenger registrar, "hand_detection_tflite") :=
         (StandardMethodCodec, plugin_handler (next_address w))]> (message_handlers w))
    (results w).
Proof. reflexivity. Qed.

(** Looking a registrar up touches the manager's table only. *)
Lemma get_registrar_run (registrar : N) (w : World) :
  GetRegistrar registrar w =
  (registrar,
   Windows.mk_world (os_version w) (heap w) (next_address w)
     (match registrars_ w !! registrar with
      | Some _ => registrars_ w
      | None => <[registrar := mk_registrar []]> (registrars_ w)
      end)
     (message_handlers w) (results w)).
Proof.
  unfold GetRegistrar. destruct (registrars_ w !! registrar); [|reflexivity].
  now destruct w.
Qed.

Lemma entry_point_run (registrar : N) (w : World) :
  exec (HandDetectionTflitePluginRegisterWithRegistrar registrar) w =
  Windows.mk_world (os_version w)
    (<[next_address w := mk_plugin]> (heap w))
    (N.succ (next_address w))
    (alter (fun r => mk_registrar (plugins_ r ++ [next_address w])) registrar
           (match registrars_ w !! registrar with
            | Some _ => registrars_ w
            | None => <[registrar := mk_registrar []]> (registrars_ w)
            end))
    (<[(messenger registrar, "hand_detection_tflite") :=
         (StandardMethodCodec, plugin_handler (next_address w))]> (message_handlers w))
    (results w).
Proof.
  unfold HandDetectionTflitePluginRegisterWithRegistrar, exec, bind.
  rewrite get_registrar_run.
  apply (register_with_registrar_run registrar).
Qed.

Lemma entry_point_owns_plugin (registrar : N) (w : World) :
  exists r : PluginRegistrarWindows,
    registrars_ (exec (HandDetectionTflitePluginRegisterWithRegistrar registrar) w)
      !! registrar = Some r
    /\ last (plugins_ r) = Some (next_address w).
Proof.
  rewrite entry_point_run. cbn [registrars_].
  destruct (registrars_ w !! registrar) as [r0|] eqn:E.
  - exists (mk_registrar (plugins_ r0 ++ [next_address w])). split.
    + rewrite lookup_alter_eq, E. reflexivity.
    + cbn. apply last_snoc.
  - exists (mk_registrar ([] ++ [next_address w])). split.
    + rewrite lookup_alter_eq, lookup_insert_eq. reflexivity.
    + reflexivity.
Qed.

End WindowsRegistration.

(* ===================================================================== *)
(** ** Concrete runs *)
(* ===================================================================== *)

Section Runs.
Import CString.

Example strcmp_equal : strcmp "getPlatformVersion" "getPlatformVersion" = 0.
Proof. reflexivity. Qed.

Example strcmp_case : strcmp "GetPlatformVersion" "getPlatformVersion" = -32.
Proof. reflexivity. Qed.

Example strcmp_prefix : strcmp "getPlatform" "getPlatformVersion" = -86.
Proof. reflexivity. Qed.

Example strcmp_stops_at_nul :
  strcmp (String "a" (String NUL "x")) (String "a" (String NUL "y")) = 0.
Proof. reflexivity. Qed.

Example compare_equal : compare "getPlatformVersion" "getPlatformVersion" = 0.
Proof. reflexivity. Qed.

Example compare_longer : compare "getPlatformVersion " "getPlatformVersion" = 1.
Proof. reflexivity. Qed.

Example compare_embedded_nul :
  compare ("getPlatformVersion" ++ String NUL "x") "getPlatformVersion" = 2.
Proof. reflexivity. Qed.

Example printf_percent : g_strdup_printf "100%% of %s, %s" ["a"; "b"] = "100% of a, b".
Proof. reflexivity. Qed.

(** Scenario 1 of the specification, on the example kernel. *)
Example linux_scenario :
  Linux.response_to 1 (Linux.mk_call "getPlatformVersion" Linux.fl_null) Examples.linux_world =
  Some (Linux.FlMethodSuccessResponse
          (Linux.fl_string "Linux #1 SMP Debian 5.15.0-1 (2022-03-01)")).
Proof. vm_compute. reflexivity. Qed.

(** Scenario 3 of the specification, and the three lower tiers. *)
Example windows_scenarios :
  map (fun v => Windows.result_of 0 (Windows.mk_call "getPlatformVersion" Windows.EncodableNull)
                  (Examples.windows_world v))
      [Examples.windows10; Examples.windows8; Examples.windows7; Examples.windows_vista] =
  map (fun s => Some (Windows.SuccessResult (Windows.EncodableString s)))
      ["Windows 10+"; "Windows 8"; "Windows 7"; "Windows "].
Proof. vm_compute. reflexivity. Qed.

(** One near miss of each kind. *)
Example near_miss_case : Spec.near_miss "getplatformversion".
Proof. apply Spec.differs_in_case; [discriminate | reflexivity]. Qed.

Example near_miss_space : Spec.near_miss " getPlatformVersion".
Proof.
  apply (Spec.surrounded_by_space " " EmptyString); [left; discriminate | reflexivity | reflexivity].
Qed.

Example near_miss_prefix : Spec.near_miss "getPlatform".
Proof. apply (Spec.strict_prefix "getPlatform" "Version"); [discriminate | reflexivity]. Qed.

Example near_miss_extension : Spec.near_miss "getPlatformVersion2".
Proof. apply (Spec.strict_extension "2"). discriminate. Qed.

End Runs.

(** Case split on whether a call names the recognised method, rewriting the
    run of the handler accordingly. *)
Ltac linux_cases self call :=
  let E := fresh "E" in
  destruct (string_dec (CString.c_str (Linux.call_name call)) "getPlatformVersion")
    as [E|E];
  [ rewrite !(linux_handle_recognised self call _ E)
  | rewrite !(linux_handle_other self call _ E) ].

Ltac windows_cases self call :=
  let E := fresh "E" in
  destruct (string_dec (Windows.method_name call) "getPlatformVersion") as [E|E];
  [ rewrite !(windows_handle_recognised self call _ E)
  | rewrite !(windows_handle_other self call _ E) ].

(* ===================================================================== *)
(** ** The properties of the specification *)
(* ===================================================================== *)

(** C1, as the code has it: on the Linux target, for every invocation with
    method name "getPlatformVersion", the string wrapped in the success
    response equals "Linux " followed by the [version] field that uname()
    filled in (read as a C string), whatever the arguments, the plugin
    instance and the rest of the world are. *)
Theorem linux_version_is_uname_version_field :
  forall (self : N) (args : Linux.FlValue) (w : Linux.World),
    Linux.response_to self (Linux.mk_call "getPlatformVersion" args) w =
    Some (Linux.FlMethodSuccessResponse
            (Linux.fl_string ("Linux " ++ CString.c_str (Linux.version (Linux.kernel w))))).
Proof. intros self args w. apply linux_response_recognised. Qed.

(** C1 as stated fails: on a kernel whose release is "5.15.0-generic" and
    whose version is "#1 SMP Debian 5.15.0-1 (2022-03-01)", the handler
    answers "Linux #1 SMP Debian 5.15.0-1 (2022-03-01)", which is not
    "Linux " followed by the release string. *)
Lemma linux_version_is_not_uname_release :
  Linux.response_to 1 (Linux.mk_call "getPlatformVersion" Linux.fl_null) Examples.linux_world =
    Some (Linux.FlMethodSuccessResponse
            (Linux.fl_string "Linux #1 SMP Debian 5.15.0-1 (2022-03-01)"))
  /\ Linux.response_to 1 (Linux.mk_call "getPlatformVersion" Linux.fl_null) Examples.linux_world <>
     Some (Linux.FlMethodSuccessResponse
             (Linux.fl_string
                ("Linux " ++ CString.c_str (Linux.release (Linux.kernel Examples.linux_world))))).
Proof.
  rewrite linux_response_recognised. split.
  - reflexivity.
  - vm_compute. discriminate.
Qed.

(** C2: on the Windows target, for every invocation with method name
    "getPlatformVersion", the completed result is a success wrapping exactly
    "Windows 10+" when IsWindows10OrGreater holds, else "Windows 8" when
    IsWindows8OrGreater holds, else "Windows 7" when IsWindows7OrGreater
    holds, else the literal "Windows " with its trailing space; this is the
    first match over the tiers (10, 8, 7) tried in descending order. *)
Theorem windows_version_by_descending_precedence :
  forall (self : N) (args : Windows.EncodableValue) (w : Windows.World),
    let v := Windows.os_version w in
    Windows.result_of self (Windows.mk_call "getPlatformVersion" args) w =
      Some (Windows.SuccessResult
              (Windows.EncodableString
                 (if Windows.windows10_or_greater v then "Windows 10+"
                  else if Windows.windows8_or_greater v then "Windows 8"
                  else if Windows.windows7_or_greater v then "Windows 7"
                  else "Windows ")))
    /\ Windows.result_of self (Windows.mk_call "getPlatformVersion" args) w =
       Some (Windows.SuccessResult
               (Windows.EncodableString (Spec.windows_version_string v))).
Proof.
  intros self args w v. subst v.
  rewrite windows_result_recognised. split; [reflexivity|].
  unfold Spec.windows_version_by_cases, Spec.windows_version_string, Spec.version_tiers.
  destruct (Windows.os_version w) as [[|] [|] [|]]; reflexivity.
Qed.

(** C3: for every invocation whose method name is not the literal
    "getPlatformVersion", both handlers answer with the not-implemented
    sentinel and never with a success.  On Linux the name reaches the handler
    as a [const gchar*], so it holds no NUL byte. *)
Theorem unrecognised_method_not_implemented :
  forall name : string,
    name <> "getPlatformVersion" ->
    (forall (self : N) (args : Linux.FlValue) (w : Linux.World),
        CString.is_c_string name = true ->
        Linux.response_to self (Linux.mk_call name args) w =
          Some Linux.FlMethodNotImplementedResponse
        /\ forall v, Linux.response_to self (Linux.mk_call name args) w <>
                     Some (Linux.FlMethodSuccessResponse v))
    /\ (forall (self : N) (args : Windows.EncodableValue) (w : Windows.World),
        Windows.result_of self (Windows.mk_call name args) w =
          Some Windows.NotImplementedResult
        /\ forall v, Windows.result_of self (Windows.mk_call name args) w <>
                     Some (Windows.SuccessResult v)).
Proof.
  intros name Hne. split.
  - intros self args w Hc.
    rewrite (linux_response_other self name args w Hc Hne).
    split; [reflexivity | discriminate].
  - intros self args w.
    rewrite (windows_result_other self name args w Hne).
    split; [reflexivity | discriminate].
Qed.

(** The scenario of the specification: "bogusMethod" on either target. *)
Lemma unrecognised_method_not_implemented_witness :
  Linux.response_to 1 (Linux.mk_call "bogusMethod" Linux.fl_null) Examples.linux_world =
    Some Linux.FlMethodNotImplementedResponse
  /\ Windows.result_of 0 (Windows.mk_call "bogusMethod" Windows.EncodableNull)
       (Examples.windows_world Examples.windows10) =
     Some Windows.NotImplementedResult.
Proof.
  assert (Hne : "bogusMethod" <> "getPlatformVersion")
    by (apply String.eqb_neq; reflexivity).
  split.
  - apply (proj1 (unrecognised_method_not_implemented "bogusMethod" Hne)).
    reflexivity.
  - apply (proj2 (unrecognised_method_not_implemented "bogusMethod" Hne)).
Defined.

(** C4: for every invocation with method name "getPlatformVersion", both
    handlers answer with a success whose value is a string (its type tag is
    the string one, so it is no number, list or map, and the response is
    neither an error nor not-implemented); on Linux the string starts with
    "Linux ".  The Linux part is what the repository's own test asserts. *)
Theorem recognised_method_succeeds_with_string :
  (forall (self : N) (args : Linux.FlValue) (w : Linux.World),
      exists (r : Linux.FlMethodResponse) (v : Linux.FlValue) (s : string),
        Linux.response_to self (Linux.mk_call "getPlatformVersion" args) w = Some r
        /\ Linux.FL_IS_METHOD_SUCCESS_RESPONSE r = true
        /\ r = Linux.FlMethodSuccessResponse v
        /\ Linux.fl_value_get_type v = Linux.FL_VALUE_TYPE_STRING
        /\ v = Linux.fl_string s
        /\ String.prefix "Linux " s = true)
  /\ (forall (self : N) (args : Windows.EncodableValue) (w : Windows.World),
      exists (r : Windows.MethodResult) (v : Windows.EncodableValue),
        Windows.result_of self (Windows.mk_call "getPlatformVersion" args) w = Some r
        /\ Windows.is_success r = true
        /\ r = Windows.SuccessResult v
        /\ Windows.holds_string v = true).
Proof.
  split.
  - intros self args w.
    rewrite linux_response_recognised.
    do 3 eexists. repeat (split; [reflexivity|]).
    destruct (CString.c_str (Linux.version (Linux.kernel w))); reflexivity.
  - intros self args w.
    rewrite windows_result_recognised.
    do 2 eexists. repeat (split; [reflexivity|]). reflexivity.
Qed.

(** C5: every invocation, on both targets, hands exactly one outcome to the
    framework (the handler is a total function, so it always returns), and
    that outcome is either a success or the not-implemented sentinel, never
    both and never neither. *)
Theorem handler_exactly_one_outcome :
  (forall (self : N) (call : Linux.FlMethodCall) (w : Linux.World),
      exists r : Linux.FlMethodResponse,
        Linux.responses (exec (Linux.hand_detection_tflite_plugin_handle_method_call self call) w) =
          (Linux.responses w ++ [r])%list
        /\ ((Linux.FL_IS_METHOD_SUCCESS_RESPONSE r = true
             /\ Linux.FL_IS_METHOD_NOT_IMPLEMENTED_RESPONSE r = false)
            \/ (Linux.FL_IS_METHOD_SUCCESS_RESPONSE r = false
                /\ Linux.FL_IS_METHOD_NOT_IMPLEMENTED_RESPONSE r = true)))
  /\ (forall (self : N) (call : Windows.MethodCall) (w : Windows.World),
      exists r : Windows.MethodResult,
        Windows.results (exec (Windows.HandleMethodCall self call) w) =
          (Windows.results w ++ [r])%list
        /\ ((Windows.is_success r = true /\ Windows.is_not_implemented r = false)
            \/ (Windows.is_success r = false /\ Windows.is_not_implemented r = true))).
Proof.
  split; intros self call w.
  - linux_cases self call; eexists; (split; [reflexivity|]);
      [left | right]; split; reflexivity.
  - windows_cases self call; eexists; (split; [reflexivity|]);
      [left | right]; split; reflexivity.
Qed.

(** C6: two invocations of "getPlatformVersion" between which the operating
    system reports the same version state return the same response, whatever
    else differs (the arguments, the plugin instance, the responses already
    sent); in particular an invocation repeated right after itself returns
    the same string. *)
Theorem platform_version_deterministic :
  (forall (self1 self2 : N) (args1 args2 : Linux.FlValue) (w1 w2 : Linux.World),
      Linux.kernel w1 = Linux.kernel w2 ->
      Linux.response_to self1 (Linux.mk_call "getPlatformVersion" args1) w1 =
      Linux.response_to self2 (Linux.mk_call "getPlatformVersion" args2) w2)
  /\ (forall (self1 self2 : N) (args1 args2 : Windows.EncodableValue) (w1 w2 : Windows.World),
      Windows.os_version w1 = Windows.os_version w2 ->
      Windows.result_of self1 (Windows.mk_call "getPlatformVersion" args1) w1 =
      Windows.result_of self2 (Windows.mk_call "getPlatformVersion" args2) w2)
  /\ (forall (self : N) (args : Linux.FlValue) (w : Linux.World),
      let call := Linux.mk_call "getPlatformVersion" args in
      Linux.response_to self call
        (exec (Linux.hand_detection_tflite_plugin_handle_method_call self call) w) =
      Linux.response_to self call w)
  /\ (forall (self : N) (args : Windows.EncodableValue) (w : Windows.World),
      let call := Windows.mk_call "getPlatformVersion" args in
      Windows.result_of self call (exec (Windows.HandleMethodCall self call) w) =
      Windows.result_of self call w).
Proof.
  repeat split.
  - intros self1 self2 args1 args2 w1 w2 Hk.
    rewrite !linux_response_recognised. now rewrite Hk.
  - intros self1 self2 args1 args2 w1 w2 Hv.
    rewrite !windows_result_recognised. now rewrite Hv.
  - intros self args w call. subst call.
    rewrite !linux_response_recognised.
    rewrite linux_handle_recognised by reflexivity. reflexivity.
  - intros self args w call. subst call.
    rewrite !windows_result_recognised.
    rewrite windows_handle_recognised by reflexivity. reflexivity.
Qed.

(** Two different calls in two different worlds that agree on the version
    state get the same answer. *)
Lemma platform_version_deterministic_witness :
  Linux.response_to 1 (Linux.mk_call "getPlatformVersion" Linux.fl_null) Examples.linux_world =
  Linux.response_to 2 (Linux.mk_call "getPlatformVersion" (Linux.fl_int 7))
    (Linux.respond_with Examples.linux_world Linux.FlMethodNotImplementedResponse)
  /\ Windows.result_of 0 (Windows.mk_call "getPlatformVersion" Windows.EncodableNull)
       (Examples.windows_world Examples.windows8) =
     Windows.result_of 5 (Windows.mk_call "getPlatformVersion" (Windows.EncodableBool true))
       (Windows.completed_with (Examples.windows_world Examples.windows8)
          Windows.NotImplementedResult).
Proof.
  split.
  - apply (proj1 platform_version_deterministic). reflexivity.
  - apply (proj1 (proj2 platform_version_deterministic)). reflexivity.
Defined.

(** C7: for the method name "getPlatformVersion" and any two argument values,
    the handler does exactly the same: the world it leaves, and so the
    response in it, does not depend on the arguments. *)
Theorem arguments_are_ignored :
  (forall (self : N) (args1 args2 : Linux.FlValue) (w : Linux.World),
      exec (Linux.hand_detection_tflite_plugin_handle_method_call self
              (Linux.mk_call "getPlatformVersion" args1)) w =
      exec (Linux.hand_detection_tflite_plugin_handle_method_call self
              (Linux.mk_call "getPlatformVersion" args2)) w)
  /\ (forall (self : N) (args1 args2 : Windows.EncodableValue) (w : Windows.World),
      exec (Windows.HandleMethodCall self (Windows.mk_call "getPlatformVersion" args1)) w =
      exec (Windows.HandleMethodCall self (Windows.mk_call "getPlatformVersion" args2)) w).
Proof.
  split.
  - intros self args1 args2 w.
    now rewrite !linux_handle_recognised by reflexivity.
  - intros self args1 args2 w.
    now rewrite !windows_handle_recognised by reflexivity.
Qed.

(** C8: handling a call writes nothing but the response: on Linux the plugin
    instances and the kernel's identification are as before, on Windows the
    plugin objects, the allocator, the registrar table, the installed
    handlers and the version answers are as before; and a later call is
    answered as if the earlier one had never happened. *)
Theorem handler_leaves_state_unchanged :
  (forall (self : N) (call : Linux.FlMethodCall) (w : Linux.World),
      let w' := exec (Linux.hand_detection_tflite_plugin_handle_method_call self call) w in
      Linux.instances w' = Linux.instances w
      /\ Linux.kernel w' = Linux.kernel w
      /\ (forall (self2 : N) (call2 : Linux.FlMethodCall),
             Linux.response_to self2 call2 w' = Linux.response_to self2 call2 w))
  /\ (forall (self : N) (call : Windows.MethodCall) (w : Windows.World),
      let w' := exec (Windows.HandleMethodCall self call) w in
      Windows.heap w' = Windows.heap w
      /\ Windows.next_address w' = Windows.next_address w
      /\ Windows.registrars_ w' = Windows.registrars_ w
      /\ Windows.message_handlers w' = Windows.message_handlers w
      /\ Windows.os_version w' = Windows.os_version w
      /\ (forall (self2 : N) (call2 : Windows.MethodCall),
             Windows.result_of self2 call2 w' = Windows.result_of self2 call2 w)).
Proof.
  split; intros self call w w'.
  - assert (Hw : exists r, w' = Linux.respond_with w r)
      by (subst w'; linux_cases self call; eexists; reflexivity).
    destruct Hw as [r ->]. repeat split.
    intros self2 call2. unfold Linux.response_to.
    linux_cases self2 call2; cbn; now rewrite !last_snoc.
  - assert (Hw : exists r, w' = Windows.completed_with w r)
      by (subst w'; windows_cases self call; eexists; reflexivity).
    destruct Hw as [r ->]. repeat split.
    intros self2 call2. unfold Windows.result_of.
    windows_cases self2 call2; cbn; now rewrite !last_snoc.
Qed.

(** C9: the method name is matched exactly, case-sensitively and as a whole:
    a name that differs from "getPlatformVersion" only in letter case, or
    carries surrounding whitespace, or is a strict prefix or a strict
    extension of it, gets the not-implemented sentinel from both handlers.
    On Linux the name reaches the handler as a [const gchar*], so it holds
    no NUL byte. *)
Theorem method_name_match_is_exact :
  forall name : string,
    Spec.near_miss name ->
    (forall (self : N) (args : Linux.FlValue) (w : Linux.World),
        CString.is_c_string name = true ->
        Linux.response_to self (Linux.mk_call name args) w =
        Some Linux.FlMethodNotImplementedResponse)
    /\ (forall (self : N) (args : Windows.EncodableValue) (w : Windows.World),
        Windows.result_of self (Windows.mk_call name args) w =
        Some Windows.NotImplementedResult).
Proof.
  intros name Hnear.
  pose proof (near_miss_differs name Hnear) as Hne.
  split.
  - intros self args w Hc. now apply linux_response_other.
  - intros self args w. now apply windows_result_other.
Qed.

(** "GetPlatformVersion", with a capital G, is not recognised. *)
Lemma method_name_match_is_exact_witness :
  Linux.response_to 1 (Linux.mk_call "GetPlatformVersion" Linux.fl_null) Examples.linux_world =
    Some Linux.FlMethodNotImplementedResponse
  /\ Windows.result_of 0 (Windows.mk_call "GetPlatformVersion" Windows.EncodableNull)
       (Examples.windows_world Examples.windows10) =
     Some Windows.NotImplementedResult.
Proof.
  assert (Hnear : Spec.near_miss "GetPlatformVersion")
    by (apply Spec.differs_in_case; [apply String.eqb_neq|]; reflexivity).
  split.
  - apply (proj1 (method_name_match_is_exact "GetPlatformVersion" Hnear)).
    reflexivity.
  - apply (proj2 (method_name_match_is_exact "GetPlatformVersion" Hnear)).
Defined.

(** C10: the two exported Windows entry points are equivalent.  Given the
    same registrar handle and the same world, each looks the registrar up in
    the singleton manager and then runs [RegisterWithRegistrar] on it, and
    they leave the same world: the channel "hand_detection_tflite" of that
    registrar's messenger carries the standard codec and a handler bound to
    the plugin just created, which the registrar owns, and a call arriving
    on that channel runs [HandleMethodCall] of that plugin. *)
Theorem windows_entry_points_equivalent :
  forall (registrar : N) (w : Windows.World),
    let w1 := exec (Windows.HandDetectionTflitePluginRegisterWithRegistrar registrar) w in
    let w2 := exec (Windows.HandDetectionTflitePluginCApiRegisterWithRegistrar registrar) w in
    Windows.HandDetectionTflitePluginRegisterWithRegistrar registrar w =
      Windows.HandDetectionTflitePluginCApiRegisterWithRegistrar registrar w
    /\ w1 = w2
    /\ w1 = exec (Windows.RegisterWithRegistrar registrar)
               (exec (Windows.GetRegistrar registrar) w)
    /\ Windows.message_handlers w2 !! (Windows.messenger registrar, "hand_detection_tflite") =
       Some (Windows.StandardMethodCodec, Windows.plugin_handler (Windows.next_address w))
    /\ Windows.heap w2 !! Windows.next_address w = Some Windows.mk_plugin
    /\ (exists r : Windows.PluginRegistrarWindows,
           Windows.registrars_ w2 !! registrar = Some r
           /\ last (Windows.plugins_ r) = Some (Windows.next_address w))
    /\ (forall call : Windows.MethodCall,
           Windows.dispatch (Windows.messenger registrar) "hand_detection_tflite" call w2 =
           Some (exec (Windows.HandleMethodCall (Windows.next_address w) call) w2)).
Proof.
  intros registrar w w1 w2.
  assert (E12 : w1 = w2) by reflexivity.
  split; [reflexivity|]. split; [exact E12|].
  rewrite <- E12. clear E12 w2. subst w1.
  split.
  { unfold Windows.HandDetectionTflitePluginRegisterWithRegistrar, exec, bind.
    rewrite get_registrar_run. reflexivity. }
  split.
  { rewrite entry_point_run. cbn [Windows.message_handlers].
    apply lookup_insert_eq. }
  split.
  { rewrite entry_point_run. cbn [Windows.heap]. apply lookup_insert_eq. }
  split.
  { apply entry_point_owns_plugin. }
  intros call. unfold Windows.dispatch.
  rewrite entry_point_run at 1. cbn [Windows.message_handlers].
  rewrite lookup_insert_eq. reflexivity.
Qed.

(* ===================================================================== *)
(** ** Further properties of the Linux shim *)
(* ===================================================================== *)

Section MonadFacts.

Lemma exec_bind_ignore {W A B : Type} (m : M W A) (k : M W B) (w : W) :
  exec (bind m (fun _ => k)) w = exec k (exec m w).
Proof. unfold exec, bind. destruct (m w) as [a w']. reflexivity. Qed.

End MonadFacts.

Section LinuxFurther.
Import CString Linux LinuxHost.

Lemma world_eta (w : World) : Linux.mk_world (kernel w) (instances w) (responses w) = w.
Proof. now destruct w. Qed.

(** A call is answered by appending one response that depends on the call
    and on the kernel only. *)
Lemma linux_handle_shape (self : N) (call : FlMethodCall) (w : World) :
  exists r : FlMethodResponse,
    forall w2 : World,
      kernel w2 = kernel w ->
      exec (hand_detection_tflite_plugin_handle_method_call self call) w2 = respond_with w2 r.
Proof.
  destruct (string_dec (c_str (call_name call)) "getPlatformVersion") as [E|E].
  - eexists. intros w2 Hk.
    rewrite (linux_handle_recognised self call w2 E), Hk. reflexivity.
  - eexists. intros w2 _.
    rewrite (linux_handle_other self call w2 E). reflexivity.
Qed.

Lemma get_platform_version_with_run
    (uname_impl : utsname -> M World (Z * utsname)) (w : World) :
  get_platform_version_with uname_impl w =
  (FlMethodSuccessResponse
     (fl_string ("Linux " ++ c_str (version (snd (fst (uname_impl utsname_zeroed w)))))),
   snd (uname_impl utsname_zeroed w)).
Proof.
  unfold get_platform_version_with, bind, ret, fl_method_success_response_new.
  destruct (uname_impl utsname_zeroed w) as [[code buf] w1]. cbn [fst snd].
  now rewrite linux_version_value.
Qed.

Lemma prefix_linux (s : string) : String.prefix "Linux " ("Linux " ++ s) = true.
Proof. destruct s; reflexivity. Qed.

End LinuxFurther.

(** X1: the repository's unit test passes on every system: whatever the
    kernel reports, [get_platform_version] returns a success whose value has
    the string type and starts with "Linux ", and running the test sends no
    response and changes nothing.  The same holds with any behaviour of
    [uname] in place of the healthy one, up to what that [uname] itself
    changes. *)
Theorem unit_test_passes_on_every_system :
  (forall w : Linux.World,
      LinuxHost.GetPlatformVersion_test Linux.get_platform_version w = (true, w))
  /\ (forall (uname_impl : Linux.utsname -> M Linux.World (Z * Linux.utsname))
             (w : Linux.World),
      LinuxHost.GetPlatformVersion_test (LinuxHost.get_platform_version_with uname_impl) w =
      (true, snd (uname_impl Linux.utsname_zeroed w))).
Proof.
  split.
  - intros w. unfold LinuxHost.GetPlatformVersion_test, bind.
    rewrite get_platform_version_run. cbn.
    now rewrite prefix_linux.
  - intros uname_impl w. unfold LinuxHost.GetPlatformVersion_test, bind.
    rewrite get_platform_version_with_run. cbn.
    now rewrite prefix_linux.
Qed.


Section LinuxRegistration.
Import CString Linux LinuxHost.

(** The host a registration leaves when the channel had no handler. *)
Lemma linux_register_run (registrar : N) (h : Host) :
  handlers h !! (registrar, "hand_detection_tflite") = None ->
  exec (hand_detection_tflite_plugin_register_with_registrar registrar) h =
  mk_host
    (Linux.mk_world (kernel (world h))
       (<[next_instance h := mk_plugin (mk_GObject 1)]> (instances (world h)))
       (responses (world h)))
    (N.succ (next_instance h))
    (<[(registrar, "hand_detection_tflite") :=
         mk_handler FlStandardMethodCodec method_call_cb_pointer (next_instance h)
                    g_object_unref_pointer]> (handlers h)).
Proof.
  intros Hfree.
  unfold hand_detection_tflite_plugin_register_with_registrar, bind,
    g_object_new, g_object_ref, fl_method_channel_set_method_call_handler,
    g_object_unref, with_instances, hand_detection_tflite_plugin_init, ret,
    fl_method_channel_new, fl_plugin_registrar_get_messenger,
    fl_standard_method_codec_new, exec.
  cbn [snd fst world next_instance handlers instances kernel responses
       channel_messenger channel_name channel_codec].
  change (c_str "hand_detection_tflite") with "hand_detection_tflite".
  rewrite Hfree.
  cbn [snd fst world next_instance handlers instances kernel responses].
  rewrite alter_insert_eq, lookup_insert_eq.
  cbn [parent_instance ref_count N.succ Pos.succ N.eqb Pos.eqb N.pred Pos.pred_N
       snd fst world next_instance handlers instances kernel responses].
  rewrite insert_insert_eq. reflexivity.
Qed.

End LinuxRegistration.

Section LinuxSequences.
Import CString Linux LinuxHost.

Lemma response_to_kernel (self1 self2 : N) (call : FlMethodCall) (w1 w2 : World) :
  kernel w1 = kernel w2 ->
  response_to self1 call w1 = response_to self2 call w2.
Proof.
  intros Hk. unfold response_to.
  destruct (string_dec (c_str (call_name call)) "getPlatformVersion") as [E|E].
  - rewrite (linux_handle_recognised self1 call w1 E),
      (linux_handle_recognised self2 call w2 E), Hk.
    cbn. now rewrite !last_snoc.
  - rewrite (linux_handle_other self1 call w1 E), (linux_handle_other self2 call w2 E).
    cbn. now rewrite !last_snoc.
Qed.

Lemma linux_handle_all_run (calls : list (N * FlMethodCall)) (w : World) :
  exists new : list FlMethodResponse,
    exec (LinuxHost.handle_all calls) w =
      Linux.mk_world (kernel w) (instances w) (responses w ++ new)
    /\ Forall2 (fun sc r => response_to (fst sc) (snd sc) w = Some r) calls new.
Proof.
  revert w. induction calls as [|[self call] rest IH]; intros w.
  - exists []. split; [|constructor].
    cbn. rewrite app_nil_r. symmetry. apply world_eta.
  - cbn [LinuxHost.handle_all]. rewrite exec_bind_ignore.
    destruct (linux_handle_shape self call w) as [r Hr].
    rewrite (Hr w eq_refl).
    destruct (IH (respond_with w r)) as [new [Hrun Hall]].
    exists (r :: new). split.
    + rewrite Hrun. cbn. now rewrite <- app_assoc.
    + constructor.
      * cbn [fst snd]. unfold response_to. rewrite (Hr w eq_refl). cbn.
        apply last_snoc.
      * eapply Forall2_impl; [exact Hall|].
        intros [s c] r' H. cbn [fst snd] in *. rewrite <- H.
        now apply response_to_kernel.
Qed.

End LinuxSequences.

(** X3: registering on a registrar whose channel "hand_detection_tflite" has
    no handler yet creates one plugin instance at the next free address and
    leaves it with exactly one reference, the one the installed handler
    holds; the handler stored for that channel is [method_call_cb] with the
    standard codec, the instance as user data and [g_object_unref] as destroy
    notification.  No other instance and no other channel is touched, and
    nothing is sent. *)
Theorem linux_registration_installs_one_owned_plugin :
  forall (registrar : N) (h : LinuxHost.Host),
    LinuxHost.handlers h !! (registrar, "hand_detection_tflite") = None ->
    let h' := exec (LinuxHost.hand_detection_tflite_plugin_register_with_registrar registrar) h in
    let a := LinuxHost.next_instance h in
    Linux.instances (LinuxHost.world h') !! a =
      Some (Linux.mk_plugin (Linux.mk_GObject 1))
    /\ LinuxHost.handlers h' !! (registrar, "hand_detection_tflite") =
       Some (LinuxHost.mk_handler LinuxHost.FlStandardMethodCodec
               LinuxHost.method_call_cb_pointer a LinuxHost.g_object_unref_pointer)
    /\ (forall b : N, b <> a ->
           Linux.instances (LinuxHost.world h') !! b =
           Linux.instances (LinuxHost.world h) !! b)
    /\ (forall k : N * string, k <> (registrar, "hand_detection_tflite") ->
           LinuxHost.handlers h' !! k = LinuxHost.handlers h !! k)
    /\ LinuxHost.next_instance h' = N.succ a
    /\ Linux.responses (LinuxHost.world h') = Linux.responses (LinuxHost.world h)
    /\ Linux.kernel (LinuxHost.world h') = Linux.kernel (LinuxHost.world h).
Proof.
  intros registrar h Hfree h' a. subst h' a.
  rewrite (linux_register_run registrar h Hfree). cbn.
  split; [apply lookup_insert_eq|].
  split; [apply lookup_insert_eq|].
  split; [intros b Hb; now apply lookup_insert_ne|].
  split; [intros k Hk; now apply lookup_insert_ne|].
  repeat split.
Qed.

(** Registration on the example host, whose channel table is empty. *)
Lemma linux_registration_installs_one_owned_plugin_witness :
  Linux.instances
    (LinuxHost.world
       (exec (LinuxHost.hand_detection_tflite_plugin_register_with_registrar 7)
             LinuxHost.example_host)) !! 2%N =
  Some (Linux.mk_plugin (Linux.mk_GObject 1)).
Proof.
  apply (linux_registration_installs_one_owned_plugin 7 LinuxHost.example_host).
  reflexivity.
Defined.

(** X4: the references balance.  When the next free address holds no object
    and the channel has no handler, registering and then having the
    framework drop the channel's handler frees the plugin again: instances,
    handlers, responses and kernel are exactly as before registration, and
    only the next free address has moved on. *)
Theorem linux_registration_then_drop_restores :
  forall (registrar : N) (h : LinuxHost.Host),
    LinuxHost.handlers h !! (registrar, "hand_detection_tflite") = None ->
    Linux.instances (LinuxHost.world h) !! LinuxHost.next_instance h = None ->
    exec (LinuxHost.drop_handler registrar "hand_detection_tflite")
         (exec (LinuxHost.hand_detection_tflite_plugin_register_with_registrar registrar) h) =
    LinuxHost.mk_host (LinuxHost.world h) (N.succ (LinuxHost.next_instance h))
                      (LinuxHost.handlers h).
Proof.
  intros registrar h Hfree Hfresh.
  rewrite (linux_register_run registrar h Hfree).
  unfold LinuxHost.drop_handler, exec. cbn [LinuxHost.handlers].
  rewrite lookup_insert_eq.
  cbn [LinuxHost.handler_destroy_notify LinuxHost.handler_user_data
       LinuxHost.run_destroy_notify LinuxHost.world LinuxHost.next_instance].
  unfold LinuxHost.g_object_unref.
  cbn [LinuxHost.world Linux.instances].
  rewrite lookup_insert_eq.
  cbn [Linux.parent_instance Linux.ref_count N.eqb Pos.eqb snd].
  unfold LinuxHost.with_instances, exec. cbn.
  rewrite (delete_insert_id _ _ _ Hfresh), (delete_insert_id _ _ _ Hfree).
  now rewrite world_eta.
Qed.

Lemma linux_registration_then_drop_restores_witness :
  exec (LinuxHost.drop_handler 7 "hand_detection_tflite")
       (exec (LinuxHost.hand_detection_tflite_plugin_register_with_registrar 7)
             LinuxHost.example_host) =
  LinuxHost.mk_host Examples.linux_world 3 ∅.
Proof.
  apply (linux_registration_then_drop_restores 7 LinuxHost.example_host); reflexivity.
Defined.

(** X5: registration and the handler compose.  After registering on a
    registrar whose channel had no handler, a call arriving on channel
    "hand_detection_tflite" of that registrar's messenger runs the handler on
    the new instance: the host gains exactly the response the handler gives
    to that call, and the instance still has its one reference. *)
Theorem linux_registered_channel_answers_calls :
  forall (registrar : N) (h : LinuxHost.Host) (call : Linux.FlMethodCall),
    LinuxHost.handlers h !! (registrar, "hand_detection_tflite") = None ->
    let h' := exec (LinuxHost.hand_detection_tflite_plugin_register_with_registrar registrar) h in
    exists (h'' : LinuxHost.Host) (r : Linux.FlMethodResponse),
      LinuxHost.deliver registrar "hand_detection_tflite" call h' = Some h''
      /\ Linux.response_to (LinuxHost.next_instance h) call (LinuxHost.world h) = Some r
      /\ Linux.responses (LinuxHost.world h'') =
         (Linux.responses (LinuxHost.world h) ++ [r])%list
      /\ Linux.instances (LinuxHost.world h'') = Linux.instances (LinuxHost.world h')
      /\ LinuxHost.handlers h'' = LinuxHost.handlers h'.
Proof.
  intros registrar h call Hfree h'. subst h'.
  rewrite (linux_register_run registrar h Hfree).
  unfold LinuxHost.deliver. cbn [LinuxHost.handlers].
  rewrite lookup_insert_eq.
  cbn [LinuxHost.handler_callback LinuxHost.handler_user_data LinuxHost.handler_codec].
  destruct (linux_handle_shape (LinuxHost.next_instance h) call (LinuxHost.world h))
    as [r Hr].
  eexists. exists r. split; [reflexivity|].
  split.
  { unfold Linux.response_to. rewrite (Hr _ eq_refl). cbn. apply last_snoc. }
  unfold LinuxHost.method_call_cb, LinuxHost.lift, exec.
  cbn [LinuxHost.world].
  pose proof (Hr (Linux.mk_world (Linux.kernel (LinuxHost.world h))
                    (<[LinuxHost.next_instance h := Linux.mk_plugin (Linux.mk_GObject 1)]>
                       (Linux.instances (LinuxHost.world h)))
                    (Linux.responses (LinuxHost.world h))) eq_refl) as Hrun.
  unfold exec in Hrun.
  destruct (Linux.hand_detection_tflite_plugin_handle_method_call _ call _) as [u w'].
  cbn [snd] in Hrun. subst w'. cbn. repeat split.
Qed.

Lemma linux_registered_channel_answers_calls_witness :
  exists (h'' : LinuxHost.Host) (r : Linux.FlMethodResponse),
    LinuxHost.deliver 7 "hand_detection_tflite"
      (Linux.mk_call "getPlatformVersion" Linux.fl_null)
      (exec (LinuxHost.hand_detection_tflite_plugin_register_with_registrar 7)
            LinuxHost.example_host) = Some h''
    /\ Linux.response_to 2 (Linux.mk_call "getPlatformVersion" Linux.fl_null)
         Examples.linux_world = Some r
    /\ Linux.responses (LinuxHost.world h'') = [r]
    /\ Linux.instances (LinuxHost.world h'') =
       Linux.instances
         (LinuxHost.world
            (exec (LinuxHost.hand_detection_tflite_plugin_register_with_registrar 7)
                  LinuxHost.example_host))
    /\ LinuxHost.handlers h'' =
       LinuxHost.handlers
         (exec (LinuxHost.hand_detection_tflite_plugin_register_with_registrar 7)
               LinuxHost.example_host).
Proof.
  apply (linux_registered_channel_answers_calls 7 LinuxHost.example_host
           (Linux.mk_call "getPlatformVersion" Linux.fl_null)).
  reflexivity.
Defined.

(** X6: calls handled one after the other are answered one for one and in
    order: after any sequence of calls the framework has received exactly one
    new response per call, the k-th being the response the k-th call would
    have got had it come first; kernel and instances are as before. *)
Theorem linux_calls_answered_in_order :
  forall (calls : list (N * Linux.FlMethodCall)) (w : Linux.World),
    exists new : list Linux.FlMethodResponse,
      exec (LinuxHost.handle_all calls) w =
        Linux.mk_world (Linux.kernel w) (Linux.instances w) (Linux.responses w ++ new)
      /\ length new = length calls
      /\ Forall2 (fun sc r => Linux.response_to (fst sc) (snd sc) w = Some r) calls new.
Proof.
  intros calls w.
  destruct (linux_handle_all_run calls w) as [new [Hrun Hall]].
  exists new. split; [exact Hrun|]. split; [|exact Hall].
  symmetry. eapply Forall2_length. exact Hall.
Qed.

(* ===================================================================== *)
(** ** Further properties of the Windows shim *)
(* ===================================================================== *)

Section WindowsFurther.
Import Windows WindowsLifetime.

Lemma windows_world_eta (w : World) :
  Windows.mk_world (os_version w) (heap w) (next_address w) (registrars_ w)
                   (message_handlers w) (results w) = w.
Proof. now destruct w. Qed.

(** A call is answered by completing one result that depends on the call and
    on the version answers only. *)
Lemma windows_handle_shape (self : N) (call : MethodCall) (w : World) :
  exists r : MethodResult,
    forall (self2 : N) (w2 : World),
      os_version w2 = os_version w ->
      exec (HandleMethodCall self2 call) w2 = completed_with w2 r.
Proof.
  destruct (string_dec (method_name call) "getPlatformVersion") as [E|E].
  - eexists. intros self2 w2 Hv.
    rewrite (windows_handle_recognised self2 call w2 E), Hv. reflexivity.
  - eexists. intros self2 w2 _.
    rewrite (windows_handle_other self2 call w2 E). reflexivity.
Qed.

Lemma result_of_version (self1 self2 : N) (call : MethodCall) (w1 w2 : World) :
  os_version w1 = os_version w2 ->
  result_of self1 call w1 = result_of self2 call w2.
Proof.
  intros Hv. unfold result_of.
  destruct (windows_handle_shape self1 call w1) as [r Hr].
  rewrite (Hr self1 w1 eq_refl), (Hr self2 w2 (eq_sym Hv)). cbn.
  now rewrite !last_snoc.
Qed.

Lemma windows_handle_all_run (calls : list (N * MethodCall)) (w : World) :
  exists new : list MethodResult,
    exec (WindowsLifetime.handle_all calls) w =
      Windows.mk_world (os_version w) (heap w) (next_address w) (registrars_ w)
                       (message_handlers w) (results w ++ new)
    /\ Forall2 (fun sc r => result_of (fst sc) (snd sc) w = Some r) calls new.
Proof.
  revert w. induction calls as [|[self call] rest IH]; intros w.
  - exists []. split; [|constructor].
    cbn. rewrite app_nil_r. symmetry. apply windows_world_eta.
  - cbn [WindowsLifetime.handle_all]. rewrite exec_bind_ignore.
    destruct (windows_handle_shape self call w) as [r Hr].
    rewrite (Hr self w eq_refl).
    destruct (IH (completed_with w r)) as [new [Hrun Hall]].
    exists (r :: new). split.
    + rewrite Hrun. cbn. now rewrite <- app_assoc.
    + constructor.
      * cbn [fst snd]. unfold result_of. rewrite (Hr self w eq_refl). cbn.
        apply last_snoc.
      * eapply Forall2_impl; [exact Hall|].
        intros [s c] r' H. cbn [fst snd] in *. rewrite <- H.
        now apply result_of_version.
Qed.

(** The registrar table after an entry point ran. *)
Lemma entry_point_registrar (registrar : N) (w : World) :
  registrars_ (exec (HandDetectionTflitePluginRegisterWithRegistrar registrar) w)
    !! registrar =
  Some (mk_registrar
          (from_option plugins_ [] (registrars_ w !! registrar) ++ [next_address w])).
Proof.
  rewrite entry_point_run. cbn [registrars_].
  rewrite lookup_alter_eq.
  destruct (registrars_ w !! registrar) as [r0|] eqn:E.
  - rewrite E. reflexivity.
  - rewrite lookup_insert_eq. reflexivity.
Qed.

Lemma entry_point_other_registrar (registrar reg : N) (w : World) :
  reg <> registrar ->
  registrars_ (exec (HandDetectionTflitePluginRegisterWithRegistrar registrar) w) !! reg =
  registrars_ w !! reg.
Proof.
  intros Hne. rewrite entry_point_run. cbn [registrars_].
  rewrite lookup_alter_ne by congruence.
  destruct (registrars_ w !! registrar); [reflexivity|].
  apply lookup_insert_ne. congruence.
Qed.

Lemma register_keeps_allocator (registrar : N) (w : World) :
  allocator_ok w ->
  allocator_ok (exec (HandDetectionTflitePluginRegisterWithRegistrar registrar) w).
Proof.
  intros Hok a. rewrite entry_point_run. cbn [heap next_address].
  destruct (decide (a = next_address w)) as [->|Hne].
  - intros _. lia.
  - rewrite lookup_insert_ne by congruence. intros Ha.
    specialize (Hok a Ha). lia.
Qed.

Lemma register_keeps_handlers_live (registrar : N) (w : World) :
  handlers_live w ->
  handlers_live (exec (HandDetectionTflitePluginRegisterWithRegistrar registrar) w).
Proof.
  intros Hlive key codec p Hkey.
  pose proof (entry_point_registrar registrar w) as Hreg.
  assert (Hheap : heap (exec (HandDetectionTflitePluginRegisterWithRegistrar registrar) w) =
                  <[next_address w := mk_plugin]> (heap w))
    by (rewrite entry_point_run; reflexivity).
  assert (Hh : message_handlers
                 (exec (HandDetectionTflitePluginRegisterWithRegistrar registrar) w) =
               <[(messenger registrar, "hand_detection_tflite") :=
                   (StandardMethodCodec, plugin_handler (next_address w))]>
                 (message_handlers w))
    by (rewrite entry_point_run; reflexivity).
  rewrite Hh in Hkey. rewrite Hheap.
  destruct (decide (key = (messenger registrar, "hand_detection_tflite"))) as [->|Hne].
  - rewrite lookup_insert_eq in Hkey. injection Hkey as _ <-.
    split.
    + rewrite lookup_insert_eq. eauto.
    + eexists registrar, _. split; [exact Hreg|].
      cbn [plugins_]. apply elem_of_app. right. apply list_elem_of_singleton. reflexivity.
  - rewrite lookup_insert_ne in Hkey by congruence.
    destruct (Hlive key codec p Hkey) as [Hp [reg [r [Hr Hin]]]].
    split.
    + destruct (decide (p = next_address w)) as [->|Hpa].
      * rewrite lookup_insert_eq. eauto.
      * rewrite lookup_insert_ne by congruence. exact Hp.
    + destruct (decide (reg = registrar)) as [->|Hrr].
      * eexists registrar, _. split; [exact Hreg|].
        rewrite Hr. cbn. apply elem_of_app. now left.
      * exists reg, r. split; [|exact Hin].
        rewrite entry_point_other_registrar by exact Hrr. exact Hr.
Qed.

Lemma step_keeps_well_formed (w w' : World) :
  step w w' -> well_formed w -> well_formed w'.
Proof.
  intros Hstep [Hok Hlive].
  destruct Hstep as [registrar w | registrar w | m c call w w' Hd].
  - split; [now apply register_keeps_allocator | now apply register_keeps_handlers_live].
  - split; [now apply (register_keeps_allocator registrar)
           | now apply (register_keeps_handlers_live registrar)].
  - unfold dispatch in Hd.
    destruct (message_handlers w !! (m, c)) as [[codec [p]]|]; [|discriminate].
    injection Hd as <-. cbn [invoke].
    destruct (windows_handle_shape p call w) as [r Hr].
    rewrite (Hr p w eq_refl). split.
    + intros a Ha. exact (Hok a Ha).
    + intros key codec' q Hkey. exact (Hlive key codec' q Hkey).
Qed.

End WindowsFurther.

(** X7: a Windows registration touches only its own channel and registrar.
    Through either entry point it completes no result and asks the system
    nothing; the handler of every other (messenger, channel) pair, the
    wrapper of every other registrar and every plugin object already on the
    heap at another address stay as they were; and the registrar keeps the
    plugins it owned, with the new one added last. *)
Theorem windows_registration_touches_only_its_channel :
  forall (registrar : N) (w : Windows.World),
    let w' := exec (Windows.HandDetectionTflitePluginCApiRegisterWithRegistrar registrar) w in
    Windows.results w' = Windows.results w
    /\ Windows.os_version w' = Windows.os_version w
    /\ (forall k : N * string,
           k <> (Windows.messenger registrar, "hand_detection_tflite") ->
           Windows.message_handlers w' !! k = Windows.message_handlers w !! k)
    /\ (forall reg : N, reg <> registrar ->
           Windows.registrars_ w' !! reg = Windows.registrars_ w !! reg)
    /\ (forall a : N, a <> Windows.next_address w ->
           Windows.heap w' !! a = Windows.heap w !! a)
    /\ Windows.registrars_ w' !! registrar =
       Some (Windows.mk_registrar
               (from_option Windows.plugins_ [] (Windows.registrars_ w !! registrar)
                  ++ [Windows.next_address w])).
Proof.
  intros registrar w w'.
  change w' with (exec (Windows.HandDetectionTflitePluginRegisterWithRegistrar registrar) w).
  clear w'.
  split; [now rewrite entry_point_run|].
  split; [now rewrite entry_point_run|].
  split.
  { intros k Hk. rewrite entry_point_run. cbn [Windows.message_handlers].
    apply lookup_insert_ne. congruence. }
  split; [intros reg Hreg; now apply entry_point_other_registrar|].
  split.
  { intros a Ha. rewrite entry_point_run. cbn [Windows.heap].
    apply lookup_insert_ne. congruence. }
  apply entry_point_registrar.
Qed.

(** X8: registering twice on the same registrar handle, through either entry
    point and in either order, creates two plugins and keeps both: the
    manager reuses the wrapper it made the first time, which then owns the
    first plugin and the second after whatever it owned before; both objects
    are on the heap; but the channel now belongs to the second plugin alone,
    so every later call runs on the second and none on the first. *)
Theorem windows_second_registration_rebinds_channel :
  forall (registrar : N) (w : Windows.World),
    let a := Windows.next_address w in
    let w2 :=
      exec (Windows.HandDetectionTflitePluginCApiRegisterWithRegistrar registrar)
           (exec (Windows.HandDetectionTflitePluginRegisterWithRegistrar registrar) w) in
    w2 = exec (Windows.HandDetectionTflitePluginRegisterWithRegistrar registrar)
              (exec (Windows.HandDetectionTflitePluginCApiRegisterWithRegistrar registrar) w)
    /\ Windows.message_handlers w2 !! (Windows.messenger registrar, "hand_detection_tflite") =
       Some (Windows.StandardMethodCodec, Windows.plugin_handler (N.succ a))
    /\ Windows.heap w2 !! a = Some Windows.mk_plugin
    /\ Windows.heap w2 !! N.succ a = Some Windows.mk_plugin
    /\ Windows.registrars_ w2 !! registrar =
       Some (Windows.mk_registrar
               (from_option Windows.plugins_ [] (Windows.registrars_ w !! registrar)
                  ++ [a; N.succ a]))
    /\ (forall call : Windows.MethodCall,
           Windows.dispatch (Windows.messenger registrar) "hand_detection_tflite" call w2 =
           Some (exec (Windows.HandleMethodCall (N.succ a) call) w2)).
Proof.
  intros registrar w a w2.
  split; [reflexivity|].
  change w2 with
    (exec (Windows.HandDetectionTflitePluginRegisterWithRegistrar registrar)
          (exec (Windows.HandDetectionTflitePluginRegisterWithRegistrar registrar) w)).
  clear w2. subst a.
  set (w1 := exec (Windows.HandDetectionTflitePluginRegisterWithRegistrar registrar) w).
  assert (Hnext : Windows.next_address w1 = N.succ (Windows.next_address w))
    by (subst w1; now rewrite entry_point_run).
  assert (Hheap1 : Windows.heap w1 !! Windows.next_address w = Some Windows.mk_plugin)
    by (subst w1; rewrite entry_point_run; apply lookup_insert_eq).
  assert (Hh : Windows.message_handlers
                 (exec (Windows.HandDetectionTflitePluginRegisterWithRegistrar registrar) w1)
               !! (Windows.messenger registrar, "hand_detection_tflite") =
               Some (Windows.StandardMethodCodec,
                     Windows.plugin_handler (N.succ (Windows.next_address w)))).
  { rewrite entry_point_run. cbn [Windows.message_handlers].
    rewrite lookup_insert_eq, Hnext. reflexivity. }
  split; [exact Hh|].
  split.
  { rewrite entry_point_run. cbn [Windows.heap].
    rewrite lookup_insert_ne by (rewrite Hnext; lia). exact Hheap1. }
  split.
  { rewrite entry_point_run. cbn [Windows.heap].
    rewrite Hnext. apply lookup_insert_eq. }
  split.
  { rewrite entry_point_registrar. subst w1.
    rewrite entry_point_registrar. cbn [from_option Windows.plugins_].
    rewrite <- app_assoc. rewrite entry_point_run at 1. reflexivity. }
  intros call. unfold Windows.dispatch. rewrite Hh. reflexivity.
Qed.

(** X9: no handler is ever left dangling.  Starting from a world where every
    live object sits below the next free address and every installed
    closure's captured pointer names a live plugin owned by some registrar,
    any number of registrations (through either entry point) and of calls
    arriving on channels leads to a world where the same holds. *)
Theorem windows_handlers_never_dangle :
  forall w w' : Windows.World,
    WindowsLifetime.well_formed w ->
    rtc WindowsLifetime.step w w' ->
    WindowsLifetime.well_formed w'.
Proof.
  intros w w' Hwf Hsteps.
  induction Hsteps as [w | w w1 w2 Hstep _ IH]; [exact Hwf|].
  apply IH. now apply (step_keeps_well_formed w w1).
Qed.

(** One registration and one call from the empty world. *)
Lemma windows_handlers_never_dangle_witness :
  WindowsLifetime.well_formed
    (exec (Windows.HandleMethodCall 0 (Windows.mk_call "getPlatformVersion" Windows.EncodableNull))
       (exec (Windows.HandDetectionTflitePluginRegisterWithRegistrar 3)
             (Examples.windows_world Examples.windows10))).
Proof.
  apply (windows_handlers_never_dangle (Examples.windows_world Examples.windows10)).
  - split.
    + intros a [p Hp]. vm_compute in Hp. discriminate.
    + intros key codec p Hp. vm_compute in Hp. discriminate.
  - eapply rtc_l; [apply (WindowsLifetime.step_register 3)|].
    eapply rtc_l; [|apply rtc_refl].
    apply (WindowsLifetime.step_call 3 "hand_detection_tflite"
             (Windows.mk_call "getPlatformVersion" Windows.EncodableNull)).
    reflexivity.
Defined.

(** X10: registration and the handler compose on Windows.  After either
    entry point ran in any world, a call arriving on channel
    "hand_detection_tflite" of the registrar's messenger completes exactly
    the result the handler gives to that call, and leaves everything else of
    the registered world as it is. *)
Theorem windows_registered_channel_answers_calls :
  forall (registrar : N) (w : Windows.World) (call : Windows.MethodCall),
    let w' := exec (Windows.HandDetectionTflitePluginCApiRegisterWithRegistrar registrar) w in
    exists r : Windows.MethodResult,
      Windows.result_of (Windows.next_address w) call w = Some r
      /\ Windows.dispatch (Windows.messenger registrar) "hand_detection_tflite" call w' =
         Some (Windows.completed_with w' r)
      /\ Windows.results (Windows.completed_with w' r) = (Windows.results w ++ [r])%list.
Proof.
  intros registrar w call w'.
  change w' with (exec (Windows.HandDetectionTflitePluginRegisterWithRegistrar registrar) w).
  clear w'.
  destruct (windows_handle_shape (Windows.next_address w) call w) as [r Hr].
  exists r. split.
  { unfold Windows.result_of. rewrite (Hr _ w eq_refl). cbn. apply last_snoc. }
  split.
  - unfold Windows.dispatch. rewrite entry_point_run at 1.
    cbn [Windows.message_handlers]. rewrite lookup_insert_eq. cbn [Windows.invoke].
    rewrite (Hr (Windows.next_address w)); [reflexivity|].
    now rewrite entry_point_run.
  - rewrite entry_point_run. reflexivity.
Qed.

(** X11: Windows calls handled one after the other are answered one for one
    and in order: after any sequence of calls exactly one new result per call
    has been completed, the k-th being the result the k-th call would have
    got had it come first; nothing else of the world has changed. *)
Theorem windows_calls_answered_in_order :
  forall (calls : list (N * Windows.MethodCall)) (w : Windows.World),
    exists new : list Windows.MethodResult,
      exec (WindowsLifetime.handle_all calls) w =
        Windows.mk_world (Windows.os_version w) (Windows.heap w) (Windows.next_address w)
          (Windows.registrars_ w) (Windows.message_handlers w) (Windows.results w ++ new)
      /\ length new = length calls
      /\ Forall2 (fun sc r => Windows.result_of (fst sc) (snd sc) w = Some r) calls new.
Proof.
  intros calls w.
  destruct (windows_handle_all_run calls w) as [new [Hrun Hall]].
  exists new. split; [exact Hrun|]. split; [|exact Hall].
  symmetry. eapply Forall2_length. exact Hall.
Qed.

(* ===================================================================== *)
(** ** The two shims against each other *)
(* ===================================================================== *)

(** X12: the two shims recognise the same method names.  For every name
    without a NUL byte (every name a C string can hold), whatever the
    arguments, instances and worlds, the Linux handler answers with a success
    exactly when the Windows handler does. *)
Theorem shims_agree_on_recognised_names :
  forall (name : string)
         (selfL : N) (argsL : Linux.FlValue) (wL : Linux.World)
         (selfW : N) (argsW : Windows.EncodableValue) (wW : Windows.World),
    CString.is_c_string name = true ->
    option_map Linux.FL_IS_METHOD_SUCCESS_RESPONSE
      (Linux.response_to selfL (Linux.mk_call name argsL) wL) =
    option_map Windows.is_success
      (Windows.result_of selfW (Windows.mk_call name argsW) wW).
Proof.
  intros name selfL argsL wL selfW argsW wW Hc.
  destruct (string_dec name "getPlatformVersion") as [->|Hne].
  - now rewrite linux_response_recognised, windows_result_recognised.
  - rewrite (linux_response_other selfL name argsL wL Hc Hne),
      (windows_result_other selfW name argsW wW Hne).
    reflexivity.
Qed.

Lemma shims_agree_on_recognised_names_witness :
  option_map Linux.FL_IS_METHOD_SUCCESS_RESPONSE
    (Linux.response_to 1 (Linux.mk_call "getplatformversion" Linux.fl_null)
       Examples.linux_world) =
  option_map Windows.is_success
    (Windows.result_of 0 (Windows.mk_call "getplatformversion" Windows.EncodableNull)
       (Examples.windows_world Examples.windows7)).
Proof.
  apply (shims_agree_on_recognised_names "getplatformversion").
  reflexivity.
Defined.
